(** * GithubClient: a shallow embedding of src/clients/github_client.py

    The module is a thin wrapper around two external facilities: the PyGithub
    library ([Github], [get_repo], [get_pull], ...) and raw HTTP calls made
    with [requests].  Both live outside the process, so they are taken as
    parameters of the development: a state [R] of the outside world and two
    transition functions that answer a library call or an HTTP request and
    move that state.  Everything the Python code itself does (reading the
    environment, building URLs and headers, logging, catching and re-raising
    exceptions, assigning instance attributes, reshaping JSON) is modelled
    explicitly in a state-and-exception monad. *)

From stdpp Require Import base gmap strings list pretty.
From Stdlib Require Import ZArith Ascii.

Set Warnings "-register-all".

(** ** Python values *)

(** Values that cross the boundary of the module: what [response.json()]
    yields (None, booleans, numbers, strings, lists, dictionaries) and opaque
    handles to objects owned by the PyGithub library.  A JSON number with a
    fraction or an exponent decodes to a float; the module never computes
    with one, so it is carried as the 64-bit pattern of the double.  Strings
    are sequences of bytes. *)
Inductive pyval : Type :=
| VNone
| VBool (b : bool)
| VInt (z : Z)
| VFloat (bits : Z)
| VStr (s : string)
| VList (l : list pyval)
| VDict (d : gmap string pyval)
| VObj (h : N).

(** [os.getenv] returns a string or [None]. *)
Definition of_opt (o : option string) : pyval :=
  match o with Some s => VStr s | None => VNone end.

(** [str(x)] for the result of [os.getenv], as an f-string renders it. *)
Definition str_opt (o : option string) : string :=
  match o with Some s => s | None => "None" end.

(** [str.lower()] on the ASCII range. *)
Definition lower_ascii (c : ascii) : ascii :=
  let n := nat_of_ascii c in
  if (65 <=? n)%nat && (n <=? 90)%nat then ascii_of_nat (n + 32) else c.

Fixpoint lower (s : string) : string :=
  match s with
  | EmptyString => EmptyString
  | String c s' => String (lower_ascii c) (lower s')
  end.

(** ** Exceptions *)

(** The exception classes the module can meet.  [HTTPError] is the
    [requests.exceptions.HTTPError] raised by [raise_for_status];
    [RequestException] stands for every other subclass of
    [requests.RequestException] (ConnectionError, Timeout, InvalidHeader,
    JSONDecodeError, ...); [OtherException] for any other subclass of
    [Exception] (for instance [github.GithubException]); [BaseException] for
    the exceptions that are not subclasses of [Exception]
    (KeyboardInterrupt, SystemExit). *)
Inductive exn : Type :=
| HTTPError (status : Z)
| RequestException (name : string)
| KeyError (key : string)
| TypeError (msg : string)
| AttributeError (attr : string)
| OtherException (name : string)
| BaseException (name : string).

(** [except Exception] *)
Definition is_Exception (e : exn) : bool :=
  match e with BaseException _ => false | _ => true end.

(** [except requests.RequestException] *)
Definition is_RequestException (e : exn) : bool :=
  match e with HTTPError _ | RequestException _ => true | _ => false end.

(** ** Raw HTTP: requests and responses *)

Inductive http_method : Type := GET | POST.

Record Request : Type := mkRequest {
  method : http_method;
  url : string;
  headers : gmap string string;
  json_payload : option pyval;
  timeout : option Z
}.

(** [json] is what [response.json()] does on this response: the decoded
    body, or the exception the decoder raises. *)
Record Response : Type := mkResponse {
  status_code : Z;
  text : string;
  json : exn + pyval
}.

(** ** Calls into the PyGithub library *)

Inductive lib_call : Type :=
| New (cls : string) (args : list pyval)
| Method (recv : pyval) (name : string) (args : list pyval)
         (kwargs : list (string * pyval))
| Attr (recv : pyval) (name : string).

(** ** Logging *)

Inductive level : Type := INFO | ERROR.

Inductive logarg : Type :=
| LVal (v : pyval)
| LExn (e : exn).

Record log_record : Type := mkLog {
  levelname : level;
  msg : string;
  args : list logarg
}.

(** ** Calls made to the outside, with their outcome *)

Inductive event : Type :=
| EvHttp (req : Request) (res : exn + Response)
| EvLib (call : lib_call) (res : exn + pyval).

(** ** Instances of the class *)

Definition loc : Type := positive.

(** The attributes of a [GithubClient] instance.  A field is [None] until
    [__init__] assigns it; [repo_name] holds the result of [os.getenv]. *)
Record GithubClient : Type := mkClient {
  client : option pyval;
  repo_name : option (option string);
  repo : option pyval
}.

Definition empty_instance : GithubClient :=
  {| client := None; repo_name := None; repo := None |}.

(** [raise_for_status] of the requests library raises for the client and
    server error ranges, 400 to 599, and for nothing else. *)
Definition is_error_status (s : Z) : bool :=
  ((400 <=? s) && (s <? 600))%Z.

Definition is_2xx (s : Z) : bool :=
  ((200 <=? s) && (s <? 300))%Z.

(** Iterating a decoded JSON value, as the list comprehension does: a list
    yields its elements, a dictionary its keys, a string its characters;
    anything else is not iterable. *)
Definition iter (v : pyval) : exn + list pyval :=
  match v with
  | VList l => inr l
  | VDict d => inr (VStr <$> (map_to_list d).*1)
  | VStr s => inr ((λ c, VStr (String c EmptyString)) <$> String.list_ascii_of_string s)
  | _ => inl (TypeError "object is not iterable")
  end.

(** [v[key]] for a string key. *)
Definition subscript (v : pyval) (key : string) : exn + pyval :=
  match v with
  | VDict d =>
      match d !! key with
      | Some x => inr x
      | None => inl (KeyError key)
      end
  | VList _ => inl (TypeError "list indices must be integers or slices, not str")
  | VStr _ => inl (TypeError "string indices must be integers")
  | _ => inl (TypeError "object is not subscriptable")
  end.

(** ** Pure code that may raise *)

Definition E (A : Type) : Type := exn + A.

#[export] Instance E_ret : MRet E := λ A a, inr a.

#[export] Instance E_bind : MBind E := λ A B k m,
  match m with
  | inl e => inl e
  | inr a => k a
  end.

(** The list comprehension of [get_comments]:
    [[{"id": comment["id"], "body": comment["body"]} for comment in comments]]. *)
Definition id_and_body (comments : pyval) : E (list (gmap string pyval)) :=
  items ← (iter comments : E (list pyval));
  mapM (λ comment,
          i ← (subscript comment "id" : E pyval);
          b ← (subscript comment "body" : E pyval);
          mret (<["body" := b]> (<["id" := i]> (∅ : gmap string pyval))))
       items.

(** ** The world outside the process

    [R] is the state of everything the process talks to (the GitHub servers,
    the PyGithub objects and their caches).  [requests_request] answers one
    call of [requests.get] or [requests.post]; [github] answers one
    constructor call, method call or attribute access of the PyGithub
    library.  Each may raise and each may change the outside state. *)
Class Outside (R : Type) : Type := {
  requests_request : R → Request → (exn + Response) * R;
  github : R → lib_call → (exn + pyval) * R
}.

(** ** The state the program runs in *)

Record world (R : Type) : Type := mkWorld {
  environ : gmap string string;
  heap : gmap loc GithubClient;
  log : list log_record;
  events : list event;
  remote : R
}.

Arguments mkWorld {R} _ _ _ _ _.
Arguments environ {R} _.
Arguments heap {R} _.
Arguments log {R} _.
Arguments events {R} _.
Arguments remote {R} _.

Definition set_heap {R : Type} (h : gmap loc GithubClient) (w : world R)
    : world R :=
  {| environ := environ w; heap := h; log := log w;
     events := events w; remote := remote w |}.

Definition add_log {R : Type} (r : log_record) (w : world R) : world R :=
  {| environ := environ w; heap := heap w; log := log w ++ [r];
     events := events w; remote := remote w |}.

Definition add_event {R : Type} (ev : event) (r : R) (w : world R) : world R :=
  {| environ := environ w; heap := heap w; log := log w;
     events := events w ++ [ev]; remote := r |}.

(** ** The monad: state plus exceptions *)

Definition M (R : Type) (A : Type) : Type := world R → (exn + A) * world R.

#[export] Instance M_ret {R : Type} : MRet (M R) := λ A a w, (inr a, w).

#[export] Instance M_bind {R : Type} : MBind (M R) := λ A B k m w,
  match m w with
  | (inl e, w') => (inl e, w')
  | (inr a, w') => k a w'
  end.

Definition raise {R A : Type} (e : exn) : M R A := λ w, (inl e, w).

Definition lift {R A : Type} (r : exn + A) : M R A := λ w, (r, w).

(** [try: body except cls as e: handler] *)
Definition try_except {R A : Type} (body : M R A) (cls : exn → bool)
    (handler : exn → M R A) : M R A := λ w,
  match body w with
  | (inl e, w') => if cls e then handler e w' else (inl e, w')
  | (inr a, w') => (inr a, w')
  end.

Notation "'try' body 'except' cls 'as' e => handler" :=
  (try_except body cls (λ e, handler))
  (at level 10, body at level 200, cls at level 9, e name,
   handler at level 200, only parsing).

(** *** The requests of the raw operations, for use in statements

    [n] is the instance's [repo_name] and [t] the value of [GITHUB_TOKEN] in
    the environment.  The lemmas [get_comments_run], [get_pr_patch_run] and
    [dismiss_review_run] show that these are the requests the operations
    send. *)

Definition comments_request (n t : option string) (pr_id : Z) : Request :=
  {| method := GET;
     url := "https://api.github.com/repos/" +:+ str_opt n
            +:+ "/issues/" +:+ pretty pr_id +:+ "/comments";
     headers :=
       <["Accept" := "Accept: application/vnd.github+json"]>
         (<["Authorization" := "token " +:+ str_opt t]> ∅);
     json_payload := None;
     timeout := None |}.

Definition patch_request (n t : option string) (pr_id : Z) : Request :=
  {| method := GET;
     url := "https://api.github.com/repos/" +:+ str_opt n
            +:+ "/pulls/" +:+ pretty pr_id;
     headers :=
       <["Accept" := "application/vnd.github.v3.diff"]>
         (<["Authorization" := "token " +:+ str_opt t]> ∅);
     json_payload := None;
     timeout := Some 60%Z |}.

Definition dismissal_request (n t : option string) (pr_id review_id : Z)
    (reason : string) : Request :=
  {| method := POST;
     url := "https://api.github.com/repos/" +:+ str_opt n
            +:+ "/pulls/" +:+ pretty pr_id
            +:+ "/reviews/" +:+ pretty review_id +:+ "/dismissals";
     headers :=
       <["Content-Type" := "application/json"]>
         (<["Accept" := "application/vnd.github+json"]>
            (<["Authorization" := "token " +:+ str_opt t]> ∅));
     json_payload :=
       Some (VDict
         (<["dismissal_reason" := VStr reason]>
            (<["message" :=
                 VStr "This review has been superseded by a newer review."]>
               ∅)));
     timeout := None |}.

(** ** The operations of the class, as a caller names them *)

Inductive operation : Type :=
| Get_pr (pr_id : Z)
| Get_pr_comments (pr_id : Z)
| Get_comments (pr_id : Z)
| Post_comment (pr_id : Z) (body : string)
| Get_commit_files (commit : pyval)
| Get_file_content (commit_sha filename : string)
| Get_pr_patch (pr_id : Z)
| Get_reviews (pr_id : Z)
| Post_review (pr_id : Z) (body : string) (event : option string)
| Dismiss_review (pr_id review_id : Z) (reason : option string).

Definition is_dismiss (op : operation) : bool :=
  match op with Dismiss_review _ _ _ => true | _ => false end.

(** An outside call failed: it raised, or it answered with an HTTP error
    status. *)
Definition failed (ev : event) : bool :=
  match ev with
  | EvHttp _ (inl _) => true
  | EvHttp _ (inr resp) => is_error_status (status_code resp)
  | EvLib _ (inl _) => true
  | EvLib _ (inr _) => false
  end.

(** The wider reading of failure: it raised, or it answered with any status
    outside 200-299. *)
Definition failed_non_2xx (ev : event) : bool :=
  match ev with
  | EvHttp _ (inl _) => true
  | EvHttp _ (inr resp) => negb (is_2xx (status_code resp))
  | EvLib _ (inl _) => true
  | EvLib _ (inr _) => false
  end.

Section Client.

Context {R : Type} `{!Outside R}.

(** *** Primitives *)

Definition getenv (k : string) : M R (option string) :=
  λ w, (inr (environ w !! k), w).

Definition logging_info (fmt : string) (a : list logarg) : M R unit :=
  λ w, (inr tt, add_log (mkLog INFO fmt a) w).

Definition logging_error (fmt : string) (a : list logarg) : M R unit :=
  λ w, (inr tt, add_log (mkLog ERROR fmt a) w).

Definition send (req : Request) : M R Response := λ w,
  let '(res, r) := requests_request (remote w) req in
  (res, add_event (EvHttp req res) r w).

Definition requests_get (u : string) (h : gmap string string)
    (t : option Z) : M R Response :=
  send (mkRequest GET u h None t).

Definition requests_post (u : string) (h : gmap string string)
    (payload : pyval) : M R Response :=
  send (mkRequest POST u h (Some payload) None).

Definition raise_for_status (r : Response) : M R unit :=
  if is_error_status (status_code r) then raise (HTTPError (status_code r))
  else mret tt.

Definition library (c : lib_call) : M R pyval := λ w,
  let '(res, r) := github (remote w) c in
  (res, add_event (EvLib c res) r w).

(** Attribute access on [self]. *)
Definition getattr {A : Type} (self : loc) (name : string)
    (field : GithubClient → option A) : M R A := λ w,
  match heap w !! self ≫= field with
  | Some v => (inr v, w)
  | None => (inl (AttributeError name), w)
  end.

Definition setattr (self : loc) (f : GithubClient → GithubClient) : M R unit :=
  λ w, (inr tt, set_heap (alter f self (heap w)) w).

Definition set_client (v : pyval) (o : GithubClient) : GithubClient :=
  {| client := Some v; repo_name := repo_name o; repo := repo o |}.

Definition set_repo_name (v : option string) (o : GithubClient) : GithubClient :=
  {| client := client o; repo_name := Some v; repo := repo o |}.

Definition set_repo (v : pyval) (o : GithubClient) : GithubClient :=
  {| client := client o; repo_name := repo_name o; repo := Some v |}.

(** A new, attribute-less object. *)
Definition new_object : M R loc := λ w,
  let l := fresh (dom (heap w)) in
  (inr l, set_heap (<[l := empty_instance]> (heap w)) w).

(** *** The class *)

Definition __init__ (self : loc) (token : string) : M R unit :=
  try
    (c ← library (New "Github" [VStr token]);
     setattr self (set_client c);;
     n ← getenv "GITHUB_REPOSITORY";
     setattr self (set_repo_name n);;
     c ← getattr self "client" client;
     n ← getattr self "repo_name" repo_name;
     r ← library (Method c "get_repo" [of_opt n] []);
     setattr self (set_repo r);;
     n ← getattr self "repo_name" repo_name;
     logging_info "Initialized GitHub client for repository: %s"
       [LVal (of_opt n)])
  except is_Exception as e =>
    (logging_error "Error initializing GitHub client: %s" [LExn e];;
     raise e).

(** The expression [GithubClient(token)]. *)
Definition new_GithubClient (token : string) : M R loc :=
  self ← new_object;
  __init__ self token;;
  mret self.

Definition get_pr (self : loc) (pr_id : Z) : M R pyval :=
  try
    (r ← getattr self "repo" repo;
     pr ← library (Method r "get_pull" [VInt pr_id] []);
     logging_info "Retrieved PR ID: %s" [LVal (VInt pr_id)];;
     mret pr)
  except is_Exception as e =>
    (logging_error "Error retrieving PR ID %s: %s"
       [LVal (VInt pr_id); LExn e];;
     raise e).

Definition get_pr_comments (self : loc) (pr_id : Z) : M R pyval :=
  try
    (pr ← get_pr self pr_id;
     comments ← library (Method pr "get_issue_comments" [] []);
     logging_info "Retrieved comments for PR ID: %s" [LVal (VInt pr_id)];;
     mret comments)
  except is_Exception as e =>
    (logging_error "Error retrieving comments for PR ID %s: %s"
       [LVal (VInt pr_id); LExn e];;
     raise e).

Definition get_comments (self : loc) (pr_id : Z)
    : M R (list (gmap string pyval)) :=
  n ← getattr self "repo_name" repo_name;
  let url := "https://api.github.com/repos/" +:+ str_opt n
             +:+ "/issues/" +:+ pretty pr_id +:+ "/comments" in
  t ← getenv "GITHUB_TOKEN";
  let headers : gmap string string :=
    <["Accept" := "Accept: application/vnd.github+json"]>
      (<["Authorization" := "token " +:+ str_opt t]> ∅) in
  response ← requests_get url headers None;
  raise_for_status response;;
  comments ← lift (json response);
  lift (id_and_body comments).

Definition post_comment (self : loc) (pr_id : Z) (body : string) : M R pyval :=
  try
    (pr ← get_pr self pr_id;
     comment ← library (Method pr "create_issue_comment" [VStr body] []);
     logging_info "Posted comment to PR ID: %s" [LVal (VInt pr_id)];;
     mret comment)
  except is_Exception as e =>
    (logging_error "Error posting comment to PR ID %s: %s"
       [LVal (VInt pr_id); LExn e];;
     raise e).

Definition get_commit_files (self : loc) (commit : pyval) : M R pyval :=
  try
    (files ← library (Attr commit "files");
     sha ← library (Attr commit "sha");
     logging_info "Retrieved files for commit: %s" [LVal sha];;
     mret files)
  except is_Exception as e =>
    (sha ← library (Attr commit "sha");
     logging_error "Error retrieving files for commit %s: %s"
       [LVal sha; LExn e];;
     raise e).

Definition get_file_content (self : loc) (commit_sha filename : string)
    : M R pyval :=
  try
    (r ← getattr self "repo" repo;
     f ← library (Method r "get_contents" [VStr filename]
                    [("ref", VStr commit_sha)]);
     b ← library (Attr f "decoded_content");
     content ← library (Method b "decode" [] []);
     logging_info "Retrieved content for file: %s at commit: %s"
       [LVal (VStr filename); LVal (VStr commit_sha)];;
     mret content)
  except is_Exception as e =>
    (logging_error "Error retrieving content for file %s at commit %s: %s"
       [LVal (VStr filename); LVal (VStr commit_sha); LExn e];;
     raise e).

Definition get_pr_patch (self : loc) (pr_id : Z) : M R string :=
  try
    (n ← getattr self "repo_name" repo_name;
     let url := "https://api.github.com/repos/" +:+ str_opt n
                +:+ "/pulls/" +:+ pretty pr_id in
     t ← getenv "GITHUB_TOKEN";
     let headers : gmap string string :=
       <["Accept" := "application/vnd.github.v3.diff"]>
         (<["Authorization" := "token " +:+ str_opt t]> ∅) in
     response ← requests_get url headers (Some 60%Z);
     raise_for_status response;;
     logging_info "Retrieved patch for PR ID: %s" [LVal (VInt pr_id)];;
     mret (text response))
  except is_RequestException as e =>
    (logging_error "Error retrieving patch for PR ID %s: %s"
       [LVal (VInt pr_id); LExn e];;
     raise e).

Definition get_reviews (self : loc) (pr_id : Z) : M R pyval :=
  try
    (pr ← get_pr self pr_id;
     reviews ← library (Method pr "get_reviews" [] []);
     logging_info "Retrieved reviews for PR ID: %s" [LVal (VInt pr_id)];;
     mret reviews)
  except is_Exception as e =>
    (logging_error "Error retrieving reviews for PR ID %s: %s"
       [LVal (VInt pr_id); LExn e];;
     raise e).

(** [event] is [None] when the caller omits the argument. *)
Definition post_review (self : loc) (pr_id : Z) (body : string)
    (event : option string) : M R pyval :=
  let event := default "COMMENT" event in
  try
    (pr ← get_pr self pr_id;
     review ← library (Method pr "create_review" []
                         [("body", VStr body); ("event", VStr event)]);
     logging_info "Posted %s review to PR ID: %s"
       [LVal (VStr (lower event)); LVal (VInt pr_id)];;
     mret review)
  except is_Exception as e =>
    (logging_error "Error posting %s review to PR ID %s: %s"
       [LVal (VStr (lower event)); LVal (VInt pr_id); LExn e];;
     raise e).

(** [reason] is [None] when the caller omits the argument. *)
Definition dismiss_review (self : loc) (pr_id review_id : Z)
    (reason : option string) : M R bool :=
  let reason := default "OUT_OF_DATE" reason in
  try
    (n ← getattr self "repo_name" repo_name;
     let url := "https://api.github.com/repos/" +:+ str_opt n
                +:+ "/pulls/" +:+ pretty pr_id
                +:+ "/reviews/" +:+ pretty review_id +:+ "/dismissals" in
     let payload : gmap string pyval :=
       <["dismissal_reason" := VStr reason]>
         (<["message" :=
              VStr "This review has been superseded by a newer review."]> ∅) in
     t ← getenv "GITHUB_TOKEN";
     let headers : gmap string string :=
       <["Content-Type" := "application/json"]>
         (<["Accept" := "application/vnd.github+json"]>
            (<["Authorization" := "token " +:+ str_opt t]> ∅)) in
     response ← requests_post url headers (VDict payload);
     raise_for_status response;;
     logging_info "Dismissed review ID %s for PR ID %s with reason: %s"
       [LVal (VInt review_id); LVal (VInt pr_id); LVal (VStr reason)];;
     mret true)
  except is_RequestException as e =>
    (logging_error "Error dismissing review ID %s for PR ID %s: %s"
       [LVal (VInt review_id); LVal (VInt pr_id); LExn e];;
     mret false).

(** *** A caller *)

(** One method call on [self]; every result is seen as a Python value. *)
Definition call (self : loc) (op : operation) : M R pyval :=
  match op with
  | Get_pr pr_id => get_pr self pr_id
  | Get_pr_comments pr_id => get_pr_comments self pr_id
  | Get_comments pr_id =>
      l ← get_comments self pr_id; mret (VList (VDict <$> l))
  | Post_comment pr_id body => post_comment self pr_id body
  | Get_commit_files commit => get_commit_files self commit
  | Get_file_content commit_sha filename =>
      get_file_content self commit_sha filename
  | Get_pr_patch pr_id => s ← get_pr_patch self pr_id; mret (VStr s)
  | Get_reviews pr_id => get_reviews self pr_id
  | Post_review pr_id body event => post_review self pr_id body event
  | Dismiss_review pr_id review_id reason =>
      b ← dismiss_review self pr_id review_id reason; mret (VBool b)
  end.

(** A sequence of calls by a caller that goes on after an exception. *)
Definition run (self : loc) (ops : list operation) (w : world R) : world R :=
  foldl (λ w op, (call self op w).2) w ops.

(** *** Properties of computations *)

(** [m] relates every state it starts from to the state it ends in. *)
Definition preserves {A : Type} (P : relation (world R)) (m : M R A) : Prop :=
  ∀ w, P w (m w).2.

(** The instances and the environment are as they were. *)
Definition same_fields (w w' : world R) : Prop :=
  heap w' = heap w ∧ environ w' = environ w.

(** The recorded outside calls only grew. *)
Definition more_events (w w' : world R) : Prop :=
  ∃ evs, events w' = events w ++ evs.

(** [m] leaves the instances and the environment as they are. *)
Definition frame {A : Type} (m : M R A) : Prop := preserves same_fields m.

(** Two states that differ at most in what was logged and recorded. *)
Definition same_local (w1 w2 : world R) : Prop :=
  environ w1 = environ w2 ∧ heap w1 = heap w2 ∧ remote w1 = remote w2.

(** The outcome of [m] is a function of the environment, the instances and
    the outside state. *)
Definition local {A : Type} (m : M R A) : Prop :=
  ∀ w1 w2, same_local w1 w2 →
    (m w1).1 = (m w2).1 ∧ same_local (m w1).2 (m w2).2.

(** [m] ends in an exception, whatever it does before. *)
Definition always_raises {A : Type} (m : M R A) : Prop :=
  ∀ w, (∃ e, (m w).1 = inl e) ∧ more_events w (m w).2.

(** No failure of an outside call made by [m] is swallowed: if one of the
    calls recorded during [m] failed, [m] ends in an exception. *)
Definition propagates {A : Type} (m : M R A) : Prop :=
  ∀ w, ∃ evs, events (m w).2 = events w ++ evs ∧
    (existsb failed evs = true → ∃ e, (m w).1 = inl e).

End Client.

(** ** A concrete outside world, to run the code on

    The outside state is the HTTP status the server answers with; a negative
    status stands for a server that cannot be reached.  The library raises
    when that status is an error status. *)

Definition demo_items : list pyval :=
  [VDict (<["user" := VStr "octocat"]>
            (<["body" := VStr "first"]> (<["id" := VInt 11]> ∅)));
   VDict (<["body" := VStr "second"]> (<["id" := VInt 12]> ∅))].

Definition demo_comments : pyval := VList demo_items.

Definition demo_response (s : Z) : Response :=
  {| status_code := s; text := "diff --git a/f b/f"; json := inr demo_comments |}.

#[export] Instance demo : Outside Z := {|
  requests_request s _ :=
    if (s <? 0)%Z then (inl (RequestException "ConnectionError"), s)
    else (inr (demo_response s), s);
  github s _ :=
    if is_error_status s then (inl (OtherException "GithubException"), s)
    else (inr (VObj 1), s)
|}.

Definition demo_client : GithubClient :=
  {| client := Some (VObj 1);
     repo_name := Some (Some "octo/hello");
     repo := Some (VObj 1) |}.

Definition demo_environ : gmap string string :=
  <["GITHUB_TOKEN" := "env-token"]> (<["GITHUB_REPOSITORY" := "octo/hello"]> ∅).

(** A process holding one constructed client, talking to a server that
    answers with status [s]. *)
Definition demo_world (s : Z) : world Z :=
  {| environ := demo_environ; heap := {[1%positive := demo_client]};
     log := []; events := []; remote := s |}.

(** A process that has not constructed a client yet. *)
Definition fresh_world (s : Z) : world Z :=
  {| environ := demo_environ; heap := ∅;
     log := []; events := []; remote := s |}.

(** ** Further relations between states *)

Definition is_http (ev : event) : bool :=
  match ev with EvHttp _ _ => true | EvLib _ _ => false end.

Definition is_lib (ev : event) : bool :=
  match ev with EvLib _ _ => true | EvHttp _ _ => false end.

(** The outside calls recorded between [w] and [w'] all satisfy [p]. *)
Definition only_events {R : Type} (p : event → bool) (w w' : world R) : Prop :=
  ∃ evs, events w' = events w ++ evs ∧ forallb p evs = true.

(** Every instance other than [self] is as it was. *)
Definition same_others {R : Type} (self : loc) (w w' : world R) : Prop :=
  ∀ l, l ≠ self → heap w' !! l = heap w !! l.

(** ** A scripted outside world

    The outside state is the list of answers still to be given: each call
    takes the next one.  A call that finds no answer of its kind fails. *)

Inductive answer : Type :=
| AHttp (r : exn + Response)
| ALib (r : exn + pyval).

#[export] Instance scripted : Outside (list answer) := {|
  requests_request s _ :=
    match s with
    | AHttp r :: s' => (r, s')
    | _ => (inl (RequestException "ConnectionError"), tail s)
    end;
  github s _ :=
    match s with
    | ALib r :: s' => (r, s')
    | _ => (inl (OtherException "GithubException"), tail s)
    end
|}.

(** A process holding one constructed client, with environment [env]. *)
Definition script_world (env : gmap string string) (s : list answer)
    : world (list answer) :=
  {| environ := env; heap := {[1%positive := demo_client]};
     log := []; events := []; remote := s |}.

(** * Proofs *)

Section Monad.
Context {R : Type} `{!Outside R}.

Lemma bind_run {A B : Type} (m : M R A) (k : A → M R B) (w : world R) :
  (m ≫= k) w =
  match m w with
  | (inl e, w') => (inl e, w')
  | (inr a, w') => k a w'
  end.
Proof. reflexivity. Qed.

Lemma try_run {A : Type} (m : M R A) cls (h : exn → M R A) (w : world R) :
  try_except m cls h w =
  match m w with
  | (inl e, w') => if cls e then h e w' else (inl e, w')
  | (inr a, w') => (inr a, w')
  end.
Proof. reflexivity. Qed.

#[export] Instance same_fields_preorder : PreOrder (same_fields (R:=R)).
Proof.
  split.
  - intros w. by split.
  - intros w1 w2 w3 [H1 H2] [H3 H4]. split; congruence.
Qed.

#[export] Instance more_events_preorder : PreOrder (more_events (R:=R)).
Proof.
  split.
  - intros w. exists []. by rewrite app_nil_r.
  - intros w1 w2 w3 [e1 H1] [e2 H2]. exists (e1 ++ e2).
    by rewrite H2, H1, app_assoc.
Qed.

(** ** Rules for [preserves] *)

Section Preserves.
Context (P : relation (world R)) `{!PreOrder P}.

Lemma preserves_ret {A : Type} (a : A) : preserves P (mret a : M R A).
Proof. intros w. simpl. reflexivity. Qed.

Lemma preserves_raise {A : Type} (e : exn) : preserves P (raise e : M R A).
Proof. intros w. simpl. reflexivity. Qed.

Lemma preserves_lift {A : Type} (r : exn + A) : preserves P (lift r : M R A).
Proof. intros w. simpl. reflexivity. Qed.

Lemma preserves_bind {A B : Type} (m : M R A) (k : A → M R B) :
  preserves P m → (∀ a, preserves P (k a)) → preserves P (m ≫= k).
Proof.
  intros Hm Hk w. rewrite bind_run. specialize (Hm w).
  destruct (m w) as [[e|a] w']; simpl in *; [done|].
  etrans; [exact Hm | apply Hk].
Qed.

Lemma preserves_try {A : Type} (m : M R A) cls (h : exn → M R A) :
  preserves P m → (∀ e, preserves P (h e)) → preserves P (try_except m cls h).
Proof.
  intros Hm Hh w. rewrite try_run. specialize (Hm w).
  destruct (m w) as [[e|a] w']; simpl in *; [|done].
  destruct (cls e); [|done].
  etrans; [exact Hm | apply Hh].
Qed.

Lemma preserves_getenv (k : string) : preserves P (getenv k).
Proof. intros w. simpl. reflexivity. Qed.

Lemma preserves_getattr {A : Type} self name (f : GithubClient → option A) :
  preserves P (getattr self name f).
Proof. intros w. unfold getattr. destruct (_ ≫= _); simpl; reflexivity. Qed.

Lemma preserves_raise_for_status (r : Response) :
  preserves P (raise_for_status r).
Proof.
  unfold raise_for_status. destruct (is_error_status _).
  - apply preserves_raise.
  - apply preserves_ret.
Qed.

Lemma preserves_logging_info fmt a :
  (∀ r w, P w (add_log r w)) → preserves P (logging_info fmt a).
Proof. intros H w. apply H. Qed.

Lemma preserves_logging_error fmt a :
  (∀ r w, P w (add_log r w)) → preserves P (logging_error fmt a).
Proof. intros H w. apply H. Qed.

Lemma preserves_send req :
  (∀ ev r w, P w (add_event ev r w)) → preserves P (send req).
Proof.
  intros H w. unfold send. destruct (requests_request _ _) as [res r].
  apply H.
Qed.

Lemma preserves_library c :
  (∀ ev r w, P w (add_event ev r w)) → preserves P (library c).
Proof.
  intros H w. unfold library. destruct (github _ _) as [res r]. apply H.
Qed.

End Preserves.

(** ** Every operation leaves the instances and the environment alone *)

Lemma same_fields_add_log r (w : world R) : same_fields w (add_log r w).
Proof. by split. Qed.

Lemma same_fields_add_event ev r (w : world R) :
  same_fields w (add_event ev r w).
Proof. by split. Qed.

Lemma more_events_add_log r (w : world R) : more_events w (add_log r w).
Proof. exists []. simpl. by rewrite app_nil_r. Qed.

Lemma more_events_add_event ev r (w : world R) :
  more_events w (add_event ev r w).
Proof. by exists [ev]. Qed.

Lemma more_events_set_heap h (w : world R) : more_events w (set_heap h w).
Proof. exists []. simpl. by rewrite app_nil_r. Qed.

Create HintDb frame.

#[local] Hint Resolve same_fields_add_log same_fields_add_event
  more_events_add_log more_events_add_event more_events_set_heap : frame.

Ltac preserve :=
  repeat (intros; cbv zeta;
    first [ match goal with |- PreOrder _ => apply _ end
          | apply preserves_ret | apply preserves_raise | apply preserves_lift
          | apply preserves_bind | apply preserves_try | apply preserves_getenv
          | apply preserves_getattr | apply preserves_raise_for_status
          | apply preserves_logging_info | apply preserves_logging_error
          | apply preserves_send | apply preserves_library
          | solve [auto with frame] ]).

Lemma frame_get_pr self pr_id : frame (get_pr self pr_id).
Proof. unfold frame, get_pr. preserve. Qed.

#[local] Hint Resolve frame_get_pr : frame.

Lemma frame_get_pr_comments self pr_id : frame (get_pr_comments self pr_id).
Proof. unfold frame, get_pr_comments. preserve. Qed.

Lemma frame_get_comments self pr_id : frame (get_comments self pr_id).
Proof. unfold frame, get_comments, requests_get. preserve. Qed.

Lemma frame_post_comment self pr_id body :
  frame (post_comment self pr_id body).
Proof. unfold frame, post_comment. preserve. Qed.

Lemma frame_get_commit_files self commit :
  frame (get_commit_files self commit).
Proof. unfold frame, get_commit_files. preserve. Qed.

Lemma frame_get_file_content self commit_sha filename :
  frame (get_file_content self commit_sha filename).
Proof. unfold frame, get_file_content. preserve. Qed.

Lemma frame_get_pr_patch self pr_id : frame (get_pr_patch self pr_id).
Proof. unfold frame, get_pr_patch, requests_get. preserve. Qed.

Lemma frame_get_reviews self pr_id : frame (get_reviews self pr_id).
Proof. unfold frame, get_reviews. preserve. Qed.

Lemma frame_post_review self pr_id body event :
  frame (post_review self pr_id body event).
Proof. unfold frame, post_review. preserve. Qed.

Lemma frame_dismiss_review self pr_id review_id reason :
  frame (dismiss_review self pr_id review_id reason).
Proof. unfold frame, dismiss_review, requests_post. preserve. Qed.

Lemma frame_call self op : frame (call self op).
Proof.
  destruct op; simpl;
    auto using frame_get_pr, frame_get_pr_comments, frame_post_comment,
      frame_get_commit_files, frame_get_file_content, frame_get_reviews,
      frame_post_review.
  - apply preserves_bind; [apply _ | apply frame_get_comments|].
    intros; apply preserves_ret; apply _.
  - apply preserves_bind; [apply _ | apply frame_get_pr_patch|].
    intros; apply preserves_ret; apply _.
  - apply preserves_bind; [apply _ | apply frame_dismiss_review|].
    intros; apply preserves_ret; apply _.
Qed.

Lemma frame_run self ops (w : world R) : same_fields w (run self ops w).
Proof.
  revert w. induction ops as [|op ops IH]; intros w; simpl.
  - reflexivity.
  - etrans; [apply (frame_call self op w) | apply IH].
Qed.

(** ** The outcome depends on the environment, the instance and the outside *)

Lemma local_ret {A : Type} (a : A) : local (mret a : M R A).
Proof. by intros w1 w2 H. Qed.

Lemma local_raise {A : Type} (e : exn) : local (raise e : M R A).
Proof. by intros w1 w2 H. Qed.

Lemma local_lift {A : Type} (r : exn + A) : local (lift r : M R A).
Proof. by intros w1 w2 H. Qed.

Lemma local_bind {A B : Type} (m : M R A) (k : A → M R B) :
  local m → (∀ a, local (k a)) → local (m ≫= k).
Proof.
  intros Hm Hk w1 w2 H. rewrite !bind_run.
  destruct (Hm w1 w2 H) as [Hr Hw].
  destruct (m w1) as [[e1|a1] w1'], (m w2) as [[e2|a2] w2'];
    simpl in *; simplify_eq; [done|]. by apply Hk.
Qed.

Lemma local_try {A : Type} (m : M R A) cls (h : exn → M R A) :
  local m → (∀ e, local (h e)) → local (try_except m cls h).
Proof.
  intros Hm Hh w1 w2 H. rewrite !try_run.
  destruct (Hm w1 w2 H) as [Hr Hw].
  destruct (m w1) as [[e1|a1] w1'], (m w2) as [[e2|a2] w2'];
    simpl in *; simplify_eq; [|done].
  destruct (cls e2); [by apply Hh | done].
Qed.

Lemma local_getenv (k : string) : local (R:=R) (getenv k).
Proof.
  intros w1 w2 H. unfold getenv. simpl.
  split; [by destruct H as [-> _] | done].
Qed.

Lemma local_getattr {A : Type} self name (f : GithubClient → option A) :
  local (R:=R) (getattr self name f).
Proof.
  intros w1 w2 H. unfold getattr. destruct H as (He & Hh & Hr).
  rewrite Hh. by destruct (_ ≫= _).
Qed.

Lemma local_raise_for_status (r : Response) : local (R:=R) (raise_for_status r).
Proof.
  unfold raise_for_status. destruct (is_error_status _).
  - apply local_raise.
  - apply local_ret.
Qed.

Lemma local_logging_info fmt a : local (R:=R) (logging_info fmt a).
Proof. by intros w1 w2 H. Qed.

Lemma local_logging_error fmt a : local (R:=R) (logging_error fmt a).
Proof. by intros w1 w2 H. Qed.

Lemma local_send req : local (send req).
Proof.
  intros w1 w2 (He & Hh & Hr). unfold send. rewrite Hr.
  by destruct (requests_request _ _) as [res r].
Qed.

Lemma local_library c : local (library c).
Proof.
  intros w1 w2 (He & Hh & Hr). unfold library. rewrite Hr.
  by destruct (github _ _) as [res r].
Qed.

Create HintDb local.

Ltac localize :=
  repeat (intros; cbv zeta;
    first [ apply local_ret | apply local_raise | apply local_lift
          | apply local_bind | apply local_try | apply local_getenv
          | apply local_getattr | apply local_raise_for_status
          | apply local_logging_info | apply local_logging_error
          | apply local_send | apply local_library
          | solve [auto with local] ]).

Lemma local_get_pr self pr_id : local (get_pr self pr_id).
Proof. unfold get_pr. localize. Qed.

#[local] Hint Resolve local_get_pr : local.

Lemma local_call self op : local (call self op).
Proof.
  destruct op; simpl;
    unfold get_pr_comments, get_comments, post_comment, get_commit_files,
      get_file_content, get_pr_patch, get_reviews, post_review,
      dismiss_review, requests_get, requests_post;
    localize.
Qed.

(** ** Failures of outside calls are not swallowed *)

Lemma always_raises_raise {A : Type} (e : exn) :
  always_raises (raise e : M R A).
Proof. intros w. split; [by exists e | reflexivity]. Qed.

Lemma always_raises_bind {A B : Type} (m : M R A) (k : A → M R B) :
  preserves more_events m → (∀ a, always_raises (k a)) →
  always_raises (m ≫= k).
Proof.
  intros Hm Hk w. rewrite bind_run. specialize (Hm w).
  destruct (m w) as [[e|a] w']; simpl in *.
  - split; [by exists e | done].
  - destruct (Hk a w') as [He Hev]. split; [done|]. by etrans.
Qed.

Lemma propagates_quiet {A : Type} (m : M R A) :
  (∀ w, events (m w).2 = events w) → propagates m.
Proof. intros H w. exists []. rewrite app_nil_r. split; [apply H | done]. Qed.

Lemma propagates_bind {A B : Type} (m : M R A) (k : A → M R B) :
  propagates m → (∀ a, propagates (k a)) → propagates (m ≫= k).
Proof.
  intros Hm Hk w. rewrite bind_run. destruct (Hm w) as (evs1 & H1 & F1).
  destruct (m w) as [[e|a] w']; simpl in *.
  - exists evs1. split; [done | by exists e].
  - destruct (Hk a w') as (evs2 & H2 & F2). exists (evs1 ++ evs2). split.
    + by rewrite H2, H1, app_assoc.
    + rewrite existsb_app, orb_true_iff. intros [F|F]; [|by apply F2].
      destruct (F1 F) as [e He]. discriminate.
Qed.

Lemma propagates_try {A : Type} (m : M R A) cls (h : exn → M R A) :
  propagates m → (∀ e, always_raises (h e)) → propagates (try_except m cls h).
Proof.
  intros Hm Hh w. rewrite try_run. destruct (Hm w) as (evs1 & H1 & F1).
  destruct (m w) as [[e|a] w']; simpl in *; [|by exists evs1].
  destruct (cls e).
  - destruct (Hh e w') as [He [evs2 H2]]. exists (evs1 ++ evs2).
    split; [by rewrite H2, H1, app_assoc | done].
  - exists evs1. split; [done | by exists e].
Qed.

Lemma propagates_library c : propagates (library c).
Proof.
  intros w. unfold library. destruct (github _ _) as [res r].
  exists [EvLib c res]. split; [done|].
  destruct res as [e|v]; simpl; [by exists e | done].
Qed.

(** A raw call followed by [raise_for_status]. *)
Lemma propagates_send_checked {A : Type} req (k : Response → M R A) :
  (∀ r, propagates (k r)) →
  propagates (r ← send req; raise_for_status r;; k r).
Proof.
  intros Hk w. rewrite bind_run. unfold send.
  destruct (requests_request _ _) as [[e|resp] r].
  - exists [EvHttp req (inl e)]. split; [done | by exists e].
  - rewrite bind_run. unfold raise_for_status.
    destruct (is_error_status (status_code resp)) eqn:Hs; simpl.
    + exists [EvHttp req (inr resp)]. split; [done | by eexists].
    + destruct (Hk resp (add_event (EvHttp req (inr resp)) r w))
        as (evs & H & F).
      exists (EvHttp req (inr resp) :: evs). split.
      * rewrite H. simpl. by rewrite <- app_assoc.
      * simpl. by rewrite Hs.
Qed.

Create HintDb propagate.

Ltac propagate :=
  repeat (intros; cbv zeta;
    first [ match goal with |- PreOrder _ => apply _ end
          | apply propagates_send_checked
          | apply propagates_bind | apply propagates_try
          | apply propagates_library
          | apply always_raises_raise | apply always_raises_bind
          | apply preserves_logging_error | apply preserves_library
          | solve [auto with frame propagate]
          | apply propagates_quiet; intros; unfold getattr;
            try destruct (_ ≫= _); reflexivity ]).

Lemma propagates_get_pr self pr_id : propagates (get_pr self pr_id).
Proof. unfold get_pr. propagate. Qed.

#[local] Hint Resolve propagates_get_pr : propagate.

Lemma propagates_call self op :
  is_dismiss op = false → propagates (call self op).
Proof.
  destruct op; simpl; intros Hop; try discriminate;
    unfold get_pr_comments, get_comments, post_comment, get_commit_files,
      get_file_content, get_pr_patch, get_reviews, post_review,
      requests_get;
    propagate.
Qed.

End Monad.

Section Claims.
Context {R : Type} `{!Outside R}.

Lemma events_fresh (w : world R) (l : list event) :
  events w = events w ++ l → l = [].
Proof.
  intros H. apply (app_inv_head (events w)). by rewrite app_nil_r.
Qed.

Ltac exec :=
  unfold requests_get, requests_post, send, library, getattr, getenv,
    raise_for_status, logging_info, logging_error, raise, lift,
    try_except, mbind, M_bind, mret, M_ret in *;
  simpl in *.

(** ** The raw operations, run symbolically *)

Lemma get_comments_run self pr_id (w : world R) n :
  heap w !! self ≫= repo_name = Some n →
  let req := comments_request n (environ w !! "GITHUB_TOKEN") pr_id in
  get_comments self pr_id w =
  let '(res, r) := requests_request (remote w) req in
  let w1 := add_event (EvHttp req res) r w in
  match res with
  | inl e => (inl e, w1)
  | inr resp =>
      if is_error_status (status_code resp)
      then (inl (HTTPError (status_code resp)), w1)
      else (json resp ≫= id_and_body, w1)
  end.
Proof.
  intros Hn req. subst req. unfold get_comments, comments_request. exec.
  rewrite Hn. destruct (requests_request (remote w) _) as [[e|resp] r]; [done|].
  destruct (is_error_status (status_code resp)); [done|].
  by destruct (json resp).
Qed.

Lemma get_comments_no_attr self pr_id (w : world R) :
  heap w !! self ≫= repo_name = None →
  get_comments self pr_id w = (inl (AttributeError "repo_name"), w).
Proof. intros Hn. unfold get_comments. exec. by rewrite Hn. Qed.

Lemma get_pr_patch_run self pr_id (w : world R) n :
  heap w !! self ≫= repo_name = Some n →
  let req := patch_request n (environ w !! "GITHUB_TOKEN") pr_id in
  get_pr_patch self pr_id w =
  let '(res, r) := requests_request (remote w) req in
  let w1 := add_event (EvHttp req res) r w in
  let failure e :=
    mkLog ERROR "Error retrieving patch for PR ID %s: %s"
      [LVal (VInt pr_id); LExn e] in
  match res with
  | inl e =>
      if is_RequestException e then (inl e, add_log (failure e) w1)
      else (inl e, w1)
  | inr resp =>
      if is_error_status (status_code resp)
      then (inl (HTTPError (status_code resp)),
            add_log (failure (HTTPError (status_code resp))) w1)
      else (inr (text resp),
            add_log (mkLog INFO "Retrieved patch for PR ID: %s"
                       [LVal (VInt pr_id)]) w1)
  end.
Proof.
  intros Hn req. subst req. unfold get_pr_patch, patch_request. exec.
  rewrite Hn. destruct (requests_request (remote w) _) as [[e|resp] r].
  - by destruct (is_RequestException e).
  - by destruct (is_error_status (status_code resp)).
Qed.

Lemma get_pr_patch_no_attr self pr_id (w : world R) :
  heap w !! self ≫= repo_name = None →
  get_pr_patch self pr_id w = (inl (AttributeError "repo_name"), w).
Proof. intros Hn. unfold get_pr_patch. exec. by rewrite Hn. Qed.

Lemma dismiss_review_run self pr_id review_id reason (w : world R) n :
  heap w !! self ≫= repo_name = Some n →
  let req :=
    dismissal_request n (environ w !! "GITHUB_TOKEN") pr_id review_id
      (default "OUT_OF_DATE" reason) in
  dismiss_review self pr_id review_id reason w =
  let '(res, r) := requests_request (remote w) req in
  let w1 := add_event (EvHttp req res) r w in
  let failure e :=
    mkLog ERROR "Error dismissing review ID %s for PR ID %s: %s"
      [LVal (VInt review_id); LVal (VInt pr_id); LExn e] in
  match res with
  | inl e =>
      if is_RequestException e then (inr false, add_log (failure e) w1)
      else (inl e, w1)
  | inr resp =>
      if is_error_status (status_code resp)
      then (inr false, add_log (failure (HTTPError (status_code resp))) w1)
      else (inr true,
            add_log
              (mkLog INFO "Dismissed review ID %s for PR ID %s with reason: %s"
                 [LVal (VInt review_id); LVal (VInt pr_id);
                  LVal (VStr (default "OUT_OF_DATE" reason))]) w1)
  end.
Proof.
  intros Hn req. subst req. unfold dismiss_review, dismissal_request. exec.
  rewrite Hn. destruct (requests_request (remote w) _) as [[e|resp] r].
  - by destruct (is_RequestException e).
  - by destruct (is_error_status (status_code resp)).
Qed.

Lemma dismiss_review_no_attr self pr_id review_id reason (w : world R) :
  heap w !! self ≫= repo_name = None →
  dismiss_review self pr_id review_id reason w
  = (inl (AttributeError "repo_name"), w).
Proof. intros Hn. unfold dismiss_review. exec. by rewrite Hn. Qed.


(** Each raw operation records exactly one outside call. *)

Lemma get_comments_events self pr_id (w : world R) n :
  heap w !! self ≫= repo_name = Some n →
  let req := comments_request n (environ w !! "GITHUB_TOKEN") pr_id in
  events (get_comments self pr_id w).2
  = events w ++ [EvHttp req (requests_request (remote w) req).1].
Proof.
  intros Hn req. rewrite (get_comments_run _ _ _ _ Hn). fold req.
  destruct (requests_request _ _) as [[e|resp] r]; simpl; [done|].
  by destruct (is_error_status _).
Qed.

Lemma get_pr_patch_events self pr_id (w : world R) n :
  heap w !! self ≫= repo_name = Some n →
  let req := patch_request n (environ w !! "GITHUB_TOKEN") pr_id in
  events (get_pr_patch self pr_id w).2
  = events w ++ [EvHttp req (requests_request (remote w) req).1].
Proof.
  intros Hn req. rewrite (get_pr_patch_run _ _ _ _ Hn). fold req.
  destruct (requests_request _ _) as [[e|resp] r]; simpl.
  - by destruct (is_RequestException _).
  - by destruct (is_error_status _).
Qed.

Lemma dismiss_review_events self pr_id review_id reason (w : world R) n :
  heap w !! self ≫= repo_name = Some n →
  let req :=
    dismissal_request n (environ w !! "GITHUB_TOKEN") pr_id review_id
      (default "OUT_OF_DATE" reason) in
  events (dismiss_review self pr_id review_id reason w).2
  = events w ++ [EvHttp req (requests_request (remote w) req).1].
Proof.
  intros Hn req. rewrite (dismiss_review_run _ _ _ _ _ _ Hn). fold req.
  destruct (requests_request _ _) as [[e|resp] r]; simpl.
  - by destruct (is_RequestException _).
  - by destruct (is_error_status _).
Qed.

Lemma attr_lookup {A : Type} self (w : world R) o (f : GithubClient → option A) v :
  heap w !! self = Some o → f o = Some v → heap w !! self ≫= f = Some v.
Proof. intros -> H. exact H. Qed.

(** ** The list comprehension *)

Lemma id_and_body_sound items result :
  id_and_body (VList items) = inr result →
  Forall2
    (λ c d, ∃ i b,
       subscript c "id" = inr i ∧ subscript c "body" = inr b ∧
       dom d = {["id"; "body"]} ∧
       d !! "id" = Some i ∧ d !! "body" = Some b)
    items result.
Proof.
  unfold id_and_body. simpl. revert result.
  induction items as [|c items IH]; intros result; simpl.
  - intros [= <-]. constructor.
  - destruct (subscript c "id") as [e|i] eqn:Hi; simpl; [done|].
    destruct (subscript c "body") as [e|b] eqn:Hb; simpl; [done|].
    destruct (mapM _ items) as [e|ds] eqn:Hm; simpl; [done|].
    intros [= <-]. constructor; [|by apply IH].
    by exists i, b.
Qed.

Lemma id_and_body_total items :
  Forall (λ c, ∃ cd, c = VDict cd ∧ is_Some (cd !! "id")
                     ∧ is_Some (cd !! "body")) items →
  ∃ result, id_and_body (VList items) = inr result.
Proof.
  unfold id_and_body. simpl. induction 1 as [|c items Hc _ IH]; simpl.
  - by eexists.
  - destruct Hc as (cd & -> & [i Hi] & [b Hb]). simpl. rewrite Hi, Hb. simpl.
    destruct IH as [ds ->]. simpl. by eexists.
Qed.

(** C2. [get_comments(pr_id)], when the GET is answered with a JSON array:
    the result has one dictionary per element of the array, in the array's
    order; each dictionary has exactly the keys [id] and [body], and their
    values are the [id] and [body] fields of that element.  The call returns
    such a list whenever every element of the array is an object with both
    fields. *)
Theorem get_comments_shape self pr_id (w : world R) req resp items :
  events (get_comments self pr_id w).2 = events w ++ [EvHttp req (inr resp)] →
  is_error_status (status_code resp) = false →
  json resp = inr (VList items) →
  (∀ result, (get_comments self pr_id w).1 = inr result →
     Forall2
       (λ c d, ∃ i b,
          subscript c "id" = inr i ∧ subscript c "body" = inr b ∧
          dom d = {["id"; "body"]} ∧
          d !! "id" = Some i ∧ d !! "body" = Some b)
       items result) ∧
  (Forall (λ c, ∃ cd, c = VDict cd ∧ is_Some (cd !! "id")
                      ∧ is_Some (cd !! "body")) items →
   ∃ result, (get_comments self pr_id w).1 = inr result).
Proof.
  intros Hev Hs Hj.
  destruct (heap w !! self ≫= repo_name) as [n|] eqn:Hn.
  - rewrite (get_comments_events _ _ _ _ Hn) in Hev.
    apply app_inv_head in Hev. injection Hev as _ Hres.
    rewrite (get_comments_run _ _ _ _ Hn). cbv zeta.
    destruct (requests_request _ _) as [res r]. simpl in Hres. subst res.
    rewrite Hs, Hj. simpl. split.
    + apply id_and_body_sound.
    + apply id_and_body_total.
  - rewrite (get_comments_no_attr _ _ _ Hn) in Hev.
    apply events_fresh in Hev. discriminate.
Qed.

(** C10. The request of [get_comments] carries, under the name [Accept], a
    value that repeats the header name: ["Accept: application/vnd.github+json"],
    which is not the media type ["application/vnd.github+json"] itself. *)
Theorem get_comments_accept_header self pr_id (w : world R) o n :
  heap w !! self = Some o → repo_name o = Some n →
  ∃ req res,
    events (get_comments self pr_id w).2 = events w ++ [EvHttp req res] ∧
    headers req !! "Accept" = Some "Accept: application/vnd.github+json" ∧
    headers req !! "Accept" ≠ Some "application/vnd.github+json".
Proof.
  intros Ho Hn. pose proof (attr_lookup _ _ _ _ _ Ho Hn) as Ha.
  eexists _, _. split; [apply (get_comments_events _ _ _ _ Ha)|].
  by split.
Qed.

(** C8. Each of the three raw operations sends [Authorization: token <t>]
    with [<t>] the value of [GITHUB_TOKEN] in the environment at the time of
    the call ([None] is rendered as the text ["None"]).  The instance [o] is
    arbitrary: whatever token its [client] was built from plays no part. *)
Theorem raw_calls_use_env_token self pr_id review_id reason (w : world R) o n :
  heap w !! self = Some o → repo_name o = Some n →
  let auth := Some ("token " +:+ str_opt (environ w !! "GITHUB_TOKEN")) in
  (∃ req res,
     events (get_comments self pr_id w).2 = events w ++ [EvHttp req res] ∧
     headers req !! "Authorization" = auth) ∧
  (∃ req res,
     events (get_pr_patch self pr_id w).2 = events w ++ [EvHttp req res] ∧
     headers req !! "Authorization" = auth) ∧
  (∃ req res,
     events (dismiss_review self pr_id review_id reason w).2
     = events w ++ [EvHttp req res] ∧
     headers req !! "Authorization" = auth).
Proof.
  intros Ho Hn auth. pose proof (attr_lookup _ _ _ _ _ Ho Hn) as Ha.
  split_and!; eexists _, _.
  - split; [apply (get_comments_events _ _ _ _ Ha) | done].
  - split; [apply (get_pr_patch_events _ _ _ _ Ha) | done].
  - split; [apply (dismiss_review_events _ _ _ _ _ _ Ha) | done].
Qed.

(** C5. [get_pr_patch(pr_id)] makes one outside call: a GET of
    [https://api.github.com/repos/{repo}/pulls/{pr_id}] with
    [Accept: application/vnd.github.v3.diff] and a timeout of 60 seconds.
    On a 2xx answer it returns the body text as it is; on a 404 or a 500 it
    raises the HTTP error. *)
Theorem get_pr_patch_request self pr_id (w : world R) o n :
  heap w !! self = Some o → repo_name o = Some n →
  ∃ req res,
    events (get_pr_patch self pr_id w).2 = events w ++ [EvHttp req res] ∧
    method req = GET ∧
    url req = "https://api.github.com/repos/" +:+ str_opt n
              +:+ "/pulls/" +:+ pretty pr_id ∧
    headers req !! "Accept" = Some "application/vnd.github.v3.diff" ∧
    timeout req = Some 60%Z ∧
    (∀ resp, res = inr resp → is_2xx (status_code resp) = true →
       (get_pr_patch self pr_id w).1 = inr (text resp)) ∧
    (∀ resp, res = inr resp →
       status_code resp = 404%Z ∨ status_code resp = 500%Z →
       (get_pr_patch self pr_id w).1 = inl (HTTPError (status_code resp))).
Proof.
  intros Ho Hn. pose proof (attr_lookup _ _ _ _ _ Ho Hn) as Ha.
  eexists _, _. split; [apply (get_pr_patch_events _ _ _ _ Ha)|].
  split_and!; try done.
  - intros resp Hres H2. rewrite (get_pr_patch_run _ _ _ _ Ha). cbv zeta.
    destruct (requests_request _ _) as [res r]. simpl in Hres. subst res.
    assert (is_error_status (status_code resp) = false) as ->; [|done].
    unfold is_2xx, is_error_status in *. lia.
  - intros resp Hres Hs. rewrite (get_pr_patch_run _ _ _ _ Ha). cbv zeta.
    destruct (requests_request _ _) as [res r]. simpl in Hres. subst res.
    assert (is_error_status (status_code resp) = true) as ->; [|done].
    unfold is_error_status. lia.
Qed.

(** C1. [dismiss_review] returns [True] when the dismissal POST is answered
    with a 2xx status, and returns [False], raising nothing, when it is
    answered with an HTTP error status.  No other operation does this: in
    each of them a failed outside call ends the operation in an
    exception. *)
Theorem dismiss_review_swallows self pr_id review_id reason (w : world R)
    req resp :
  events (dismiss_review self pr_id review_id reason w).2
  = events w ++ [EvHttp req (inr resp)] →
  (is_2xx (status_code resp) = true →
     (dismiss_review self pr_id review_id reason w).1 = inr true) ∧
  (is_error_status (status_code resp) = true →
     (dismiss_review self pr_id review_id reason w).1 = inr false) ∧
  (∀ op, is_dismiss op = false → propagates (call self op)).
Proof.
  intros Hev. split_and!; [| |apply propagates_call].
  all: intros Hs; destruct (heap w !! self ≫= repo_name) as [n|] eqn:Hn;
    [|rewrite (dismiss_review_no_attr _ _ _ _ _ Hn) in Hev;
      apply events_fresh in Hev; discriminate].
  all: rewrite (dismiss_review_events _ _ _ _ _ _ Hn) in Hev;
    apply app_inv_head in Hev; injection Hev as _ Hres;
    rewrite (dismiss_review_run _ _ _ _ _ _ Hn); cbv zeta;
    destruct (requests_request _ _) as [res r]; simpl in Hres; subst res.
  - assert (is_error_status (status_code resp) = false) as ->; [|done].
    unfold is_2xx, is_error_status in *. lia.
  - by rewrite Hs.
Qed.

(** C3, as amended.  In every operation other than [dismiss_review], if an
    outside call made during the operation raised or was answered with an
    HTTP error status (400 to 599), the operation ends in an exception; it
    returns neither [False] nor [None]. *)
Theorem failure_surfaces_as_exception self op (w : world R) evs :
  is_dismiss op = false →
  events (call self op w).2 = events w ++ evs →
  existsb failed evs = true →
  (∃ e, (call self op w).1 = inl e) ∧
  (call self op w).1 ≠ inr (VBool false) ∧
  (call self op w).1 ≠ inr VNone.
Proof.
  intros Hop Hev Hf.
  destruct (propagates_call self op Hop w) as (evs' & Hev' & H).
  rewrite Hev' in Hev. apply app_inv_head in Hev. subst evs'.
  destruct (H Hf) as [e He]. rewrite He. split_and!; [by exists e|done|done].
Qed.

(** C6. [post_review] hands the event string it is given to
    [create_review], unchanged, next to the body; what the caller gets back,
    a review handle or an exception, is what [create_review] gives.  With
    the event omitted the call is the one with [COMMENT]. *)
Theorem post_review_forwards_event self pr_id body event (w : world R) pr w1 :
  get_pr self pr_id w = (inr pr, w1) →
  let c := Method pr "create_review" []
             [("body", VStr body); ("event", VStr event)] in
  events (post_review self pr_id body (Some event) w).2
  = events w1 ++ [EvLib c (github (remote w1) c).1] ∧
  (post_review self pr_id body (Some event) w).1 = (github (remote w1) c).1 ∧
  post_review self pr_id body None w
  = post_review self pr_id body (Some "COMMENT") w.
Proof.
  intros Hpr c. split_and!; [| |done].
  all: unfold post_review; exec; rewrite Hpr; fold c;
    destruct (github (remote w1) c) as [[e|review] r]; simpl; [|done];
    by destruct (is_Exception e).
Qed.

(** C7. [GithubClient(token)] asks the library for [Github(token)], reads
    [GITHUB_REPOSITORY] from the environment and asks for that repository.
    If either call raises, the constructor raises the same exception and the
    caller gets no instance; otherwise the caller gets an instance whose
    three fields are the library client, the name read and the repository
    handle. *)
Theorem constructor_all_or_nothing token (w : world R) :
  let self := fresh (dom (heap w)) in
  let name := environ w !! "GITHUB_REPOSITORY" in
  match github (remote w) (New "Github" [VStr token]) with
  | (inl e, _) => (new_GithubClient token w).1 = inl e
  | (inr c, r1) =>
      match github r1 (Method c "get_repo" [of_opt name] []) with
      | (inl e, _) => (new_GithubClient token w).1 = inl e
      | (inr rp, _) =>
          (new_GithubClient token w).1 = inr self ∧
          heap (new_GithubClient token w).2 !! self
          = Some {| client := Some c; repo_name := Some name;
                    repo := Some rp |}
      end
  end.
Proof.
  intros self name. unfold new_GithubClient, __init__, new_object, setattr.
  exec. fold self.
  destruct (github (remote w) _) as [[e|c] r1]; simpl.
  - by destruct (is_Exception e).
  - repeat (progress (rewrite ?lookup_alter_eq, ?lookup_insert_eq; simpl)).
    fold name.
    destruct (github r1 _) as [[e|rp] r2]; simpl.
    + by destruct (is_Exception e).
    + repeat (progress (rewrite ?lookup_alter_eq, ?lookup_insert_eq; simpl)).
      done.
Qed.

(** The pattern of every library-backed operation,
    [try: ... except Exception as e: logging.error(...); raise]: an
    exception of class [Exception] is logged and raised again as it is. *)
Lemma try_log_reraise {A : Type} (body : M R A) fmt (a : exn → list logarg)
    (w w1 : world R) e :
  body w = (inl e, w1) → is_Exception e = true →
  try_except body is_Exception (λ e, logging_error fmt (a e);; raise e) w
  = (inl e, add_log (mkLog ERROR fmt (a e)) w1).
Proof. intros Hb He. rewrite try_run, Hb, He. reflexivity. Qed.

(** [get_comments] writes no log record, whatever happens. *)
Lemma get_comments_silent self pr_id (w : world R) :
  log (get_comments self pr_id w).2 = log w.
Proof.
  destruct (heap w !! self ≫= repo_name) as [n|] eqn:Hn.
  - rewrite (get_comments_run _ _ _ _ Hn). cbv zeta.
    destruct (requests_request _ _) as [[e|resp] r]; simpl; [done|].
    by destruct (is_error_status _).
  - by rewrite (get_comments_no_attr _ _ _ Hn).
Qed.

(** C9. After any sequence of calls on [self], the instances, and so the
    fields [client], [repo_name] and [repo] of [self], and the environment
    are what they were before the first call, and one more call leaves them
    so.  The outcome of a call is the same from any state with that
    environment, those instances and the same outside state: what earlier
    calls logged or recorded plays no part. *)
Theorem operations_leave_state self ops op (w : world R) :
  heap (run self ops w) = heap w ∧
  environ (run self ops w) = environ w ∧
  heap (call self op (run self ops w)).2 = heap w ∧
  (∀ w2, environ w2 = environ w → heap w2 = heap w →
         remote w2 = remote (run self ops w) →
         (call self op w2).1 = (call self op (run self ops w)).1).
Proof.
  destruct (frame_run self ops w) as [Hh He].
  destruct (frame_call self op (run self ops w)) as [Hh' _].
  split_and!; [done | done | congruence |].
  intros w2 H1 H2 H3. apply local_call. split_and!; congruence.
Qed.

End Claims.

(** * The code run on the concrete outside world *)

(** C4. A 404 answer to the GET of [get_comments] comes out as the HTTP
    error and leaves the log as it was, where the same answer to the GET of
    [get_pr_patch] is logged at level ERROR with the pull request id before
    it is raised again. *)
Theorem get_comments_error_not_logged :
  (get_comments 1%positive 7 (demo_world 404)).1 = inl (HTTPError 404) ∧
  log (get_comments 1%positive 7 (demo_world 404)).2 = [] ∧
  (get_pr_patch 1%positive 7 (demo_world 404)).1 = inl (HTTPError 404) ∧
  log (get_pr_patch 1%positive 7 (demo_world 404)).2
  = [mkLog ERROR "Error retrieving patch for PR ID %s: %s"
       [LVal (VInt 7); LExn (HTTPError 404)]].
Proof. by vm_compute. Qed.

(** C3 as stated fails: answered with status 304, which is not a 2xx
    status, [get_pr_patch] raises nothing and returns the body text. *)
Lemma non_2xx_status_not_raised :
  ¬ (is_dismiss (Get_pr_patch 7) = false →
     ∀ evs,
       events (call 1%positive (Get_pr_patch 7) (demo_world 304)).2
       = events (demo_world 304) ++ evs →
       existsb failed_non_2xx evs = true →
       ∃ e, (call 1%positive (Get_pr_patch 7) (demo_world 304)).1 = inl e).
Proof.
  intros H.
  destruct (H eq_refl
              (events (call 1%positive (Get_pr_patch 7) (demo_world 304)).2))
    as [e He].
  - reflexivity.
  - by vm_compute.
  - vm_compute in He. discriminate.
Qed.

(** ** The theorems at concrete inputs *)

Lemma dismiss_review_swallows_witness :
  (dismiss_review 1%positive 7 3 None (demo_world 204)).1 = inr true ∧
  (dismiss_review 1%positive 7 3 None (demo_world 404)).1 = inr false.
Proof.
  split.
  - apply (dismiss_review_swallows 1%positive 7 3 None (demo_world 204)
             (dismissal_request (Some "octo/hello") (Some "env-token") 7 3
                "OUT_OF_DATE")
             (demo_response 204)); vm_compute; reflexivity.
  - apply (dismiss_review_swallows 1%positive 7 3 None (demo_world 404)
             (dismissal_request (Some "octo/hello") (Some "env-token") 7 3
                "OUT_OF_DATE")
             (demo_response 404)); vm_compute; reflexivity.
Defined.

Lemma get_comments_shape_witness :
  ∃ result,
    (get_comments 1%positive 7 (demo_world 200)).1 = inr result ∧
    Forall2
      (λ c d, ∃ i b,
         subscript c "id" = inr i ∧ subscript c "body" = inr b ∧
         dom d = {["id"; "body"]} ∧
         d !! "id" = Some i ∧ d !! "body" = Some b)
      demo_items result.
Proof.
  destruct (get_comments_shape 1%positive 7 (demo_world 200)
              (comments_request (Some "octo/hello") (Some "env-token") 7)
              (demo_response 200) demo_items) as [Hshape Htotal];
    [vm_compute; reflexivity | vm_compute; reflexivity | reflexivity |].
  destruct Htotal as [result Hres].
  - repeat constructor; eexists; (split; [reflexivity|]); split; by eexists.
  - exists result. split; [exact Hres | exact (Hshape result Hres)].
Defined.

Lemma failure_surfaces_as_exception_witness :
  (∃ e, (call 1%positive (Get_pr_patch 7) (demo_world 404)).1 = inl e) ∧
  (∃ e, (call 1%positive (Get_reviews 7) (demo_world 404)).1 = inl e).
Proof.
  split.
  - apply (failure_surfaces_as_exception 1%positive (Get_pr_patch 7)
             (demo_world 404)
             (events (call 1%positive (Get_pr_patch 7) (demo_world 404)).2));
      [reflexivity | reflexivity | vm_compute; reflexivity].
  - apply (failure_surfaces_as_exception 1%positive (Get_reviews 7)
             (demo_world 404)
             (events (call 1%positive (Get_reviews 7) (demo_world 404)).2));
      [reflexivity | reflexivity | vm_compute; reflexivity].
Defined.

Lemma get_pr_patch_request_witness :
  (get_pr_patch 1%positive 7 (demo_world 200)).1 = inr "diff --git a/f b/f" ∧
  (get_pr_patch 1%positive 7 (demo_world 500)).1 = inl (HTTPError 500).
Proof.
  split.
  - destruct (get_pr_patch_request 1%positive 7 (demo_world 200) demo_client
                (Some "octo/hello") eq_refl eq_refl)
      as (req & res & Hev & _ & _ & _ & _ & Hok & _).
    vm_compute in Hev. injection Hev as _ <-.
    exact (Hok _ eq_refl eq_refl).
  - destruct (get_pr_patch_request 1%positive 7 (demo_world 500) demo_client
                (Some "octo/hello") eq_refl eq_refl)
      as (req & res & Hev & _ & _ & _ & _ & _ & Herr).
    vm_compute in Hev. injection Hev as _ <-.
    exact (Herr _ eq_refl (or_intror eq_refl)).
Defined.

Lemma post_review_forwards_event_witness :
  events (post_review 1%positive 7 "lgtm" (Some "APPROVE") (demo_world 200)).2
  = events (get_pr 1%positive 7 (demo_world 200)).2
    ++ [EvLib (Method (VObj 1) "create_review" []
                 [("body", VStr "lgtm"); ("event", VStr "APPROVE")])
          (inr (VObj 1))] ∧
  (post_review 1%positive 7 "lgtm" (Some "APPROVE") (demo_world 200)).1
  = inr (VObj 1).
Proof.
  destruct (post_review_forwards_event 1%positive 7 "lgtm" "APPROVE"
              (demo_world 200) (VObj 1)
              (get_pr 1%positive 7 (demo_world 200)).2)
    as (Hev & Hres & _); [vm_compute; reflexivity|].
  split; [exact Hev | exact Hres].
Defined.

Lemma raw_calls_use_env_token_witness :
  (new_GithubClient "ctor-token" (fresh_world 200)).1 = inr 1%positive ∧
  ∃ req res,
    events (get_pr_patch 1%positive 7
              (new_GithubClient "ctor-token" (fresh_world 200)).2).2
    = events (new_GithubClient "ctor-token" (fresh_world 200)).2
      ++ [EvHttp req res] ∧
    headers req !! "Authorization" = Some "token env-token".
Proof.
  split; [vm_compute; reflexivity|].
  destruct (raw_calls_use_env_token 1%positive 7 3 None
              (new_GithubClient "ctor-token" (fresh_world 200)).2
              demo_client (Some "octo/hello"))
    as (_ & Hpatch & _); [vm_compute; reflexivity | reflexivity |].
  exact Hpatch.
Defined.

Lemma operations_leave_state_witness :
  (call 1%positive (Get_comments 7) (demo_world 200)).1
  = (call 1%positive (Get_comments 7)
       (run 1%positive [Post_comment 7 "hi"; Dismiss_review 7 3 None]
          (demo_world 200))).1.
Proof.
  destruct (operations_leave_state 1%positive
              [Post_comment 7 "hi"; Dismiss_review 7 3 None]
              (Get_comments 7) (demo_world 200))
    as (_ & _ & _ & Hsame).
  apply Hsame; [reflexivity | reflexivity | vm_compute; reflexivity].
Defined.

Lemma get_comments_accept_header_witness :
  ∃ req res,
    events (get_comments 1%positive 7 (demo_world 200)).2
    = events (demo_world 200) ++ [EvHttp req res] ∧
    headers req !! "Accept" = Some "Accept: application/vnd.github+json" ∧
    headers req !! "Accept" ≠ Some "application/vnd.github+json".
Proof.
  apply (get_comments_accept_header 1%positive 7 (demo_world 200) demo_client
           (Some "octo/hello")); reflexivity.
Defined.

(** * Further properties of the code *)

Section Extras.
Context {R : Type} `{!Outside R}.

Ltac run_code :=
  unfold requests_get, requests_post, send, library, getattr, getenv,
    raise_for_status, logging_info, logging_error, raise, lift,
    try_except, mbind, M_bind, mret, M_ret in *;
  simpl in *.

(** ** The library-backed operations, run symbolically *)

Lemma get_pr_run self pr_id (w : world R) rp :
  heap w !! self ≫= repo = Some rp →
  let c := Method rp "get_pull" [VInt pr_id] [] in
  get_pr self pr_id w =
  let '(res, r) := github (remote w) c in
  let w1 := add_event (EvLib c res) r w in
  match res with
  | inl e =>
      if is_Exception e
      then (inl e, add_log (mkLog ERROR "Error retrieving PR ID %s: %s"
                              [LVal (VInt pr_id); LExn e]) w1)
      else (inl e, w1)
  | inr pr =>
      (inr pr, add_log (mkLog INFO "Retrieved PR ID: %s"
                          [LVal (VInt pr_id)]) w1)
  end.
Proof.
  intros Hr c. subst c. unfold get_pr. run_code. rewrite Hr.
  destruct (github (remote w) _) as [[e|pr] r]; [|done].
  by destruct (is_Exception e).
Qed.

(** X7. [get_pr] makes one library call, [get_pull(pr_id)] on the
    repository handle of the instance, and its outcome, the pull request or
    the exception, is the outcome of that call. *)
Theorem get_pr_is_get_pull self pr_id (w : world R) o rp :
  heap w !! self = Some o → repo o = Some rp →
  events (get_pr self pr_id w).2
  = events w ++ [EvLib (Method rp "get_pull" [VInt pr_id] [])
                   (github (remote w)
                      (Method rp "get_pull" [VInt pr_id] [])).1] ∧
  (get_pr self pr_id w).1
  = (github (remote w) (Method rp "get_pull" [VInt pr_id] [])).1.
Proof.
  intros Ho Hr. rewrite (get_pr_run _ _ _ rp); [|by rewrite Ho].
  cbv zeta. destruct (github _ _) as [[e|pr] r]; simpl; [|done].
  by destruct (is_Exception e).
Qed.

(** X8. [get_pr_comments], [post_comment] and [get_reviews] call
    [get_issue_comments()], [create_issue_comment(body)] and [get_reviews()]
    on the pull request that [get_pr] returned, make no other outside call
    after it, and give back the outcome of that call. *)
Theorem pr_operations_forward self pr_id body (w : world R) pr w1 :
  get_pr self pr_id w = (inr pr, w1) →
  let c1 := Method pr "get_issue_comments" [] [] in
  let c2 := Method pr "create_issue_comment" [VStr body] [] in
  let c3 := Method pr "get_reviews" [] [] in
  (events (get_pr_comments self pr_id w).2
   = events w1 ++ [EvLib c1 (github (remote w1) c1).1] ∧
   (get_pr_comments self pr_id w).1 = (github (remote w1) c1).1) ∧
  (events (post_comment self pr_id body w).2
   = events w1 ++ [EvLib c2 (github (remote w1) c2).1] ∧
   (post_comment self pr_id body w).1 = (github (remote w1) c2).1) ∧
  (events (get_reviews self pr_id w).2
   = events w1 ++ [EvLib c3 (github (remote w1) c3).1] ∧
   (get_reviews self pr_id w).1 = (github (remote w1) c3).1).
Proof.
  intros Hpr c1 c2 c3. split_and!.
  all: unfold get_pr_comments, post_comment, get_reviews; run_code;
    rewrite Hpr.
  1,2: fold c1; destruct (github (remote w1) c1) as [[e|v] r]; simpl;
    [by destruct (is_Exception e) | done].
  1,2: fold c2; destruct (github (remote w1) c2) as [[e|v] r]; simpl;
    [by destruct (is_Exception e) | done].
  1,2: fold c3; destruct (github (remote w1) c3) as [[e|v] r]; simpl;
    [by destruct (is_Exception e) | done].
Qed.


(** X10. [get_file_content] asks the repository handle for
    [get_contents(filename, ref=commit_sha)], reads [decoded_content] of what
    comes back and calls [decode()] on that; when the first two succeed, the
    outcome of [decode()] is the outcome of the operation. *)
Theorem get_file_content_steps self commit_sha filename (w : world R)
    o rp f r1 b r2 :
  heap w !! self = Some o → repo o = Some rp →
  let c1 := Method rp "get_contents" [VStr filename]
              [("ref", VStr commit_sha)] in
  let c2 := Attr f "decoded_content" in
  let c3 := Method b "decode" [] [] in
  github (remote w) c1 = (inr f, r1) →
  github r1 c2 = (inr b, r2) →
  events (get_file_content self commit_sha filename w).2
  = events w ++ [EvLib c1 (inr f); EvLib c2 (inr b);
                 EvLib c3 (github r2 c3).1] ∧
  (get_file_content self commit_sha filename w).1 = (github r2 c3).1.
Proof.
  intros Ho Hr c1 c2 c3 H1 H2. unfold get_file_content. run_code.
  rewrite Ho. simpl. rewrite Hr. fold c1. rewrite H1. simpl.
  fold c2. rewrite H2. simpl. fold c3.
  destruct (github r2 c3) as [[e|v] r3]; simpl.
  - destruct (is_Exception e); simpl; by rewrite <- !app_assoc.
  - by rewrite <- !app_assoc.
Qed.

(** X11. When reading [commit.files] raises an exception [e1] of class
    [Exception], the handler of [get_commit_files] reads [commit.sha] for its
    log record.  If that read succeeds, [e1] is logged with the sha and
    raised again; if it raises [e2], then [e2] comes out in place of [e1]
    and nothing is logged. *)
Theorem get_commit_files_handler self commit (w : world R) e1 r1 :
  github (remote w) (Attr commit "files") = (inl e1, r1) →
  is_Exception e1 = true →
  match github r1 (Attr commit "sha") with
  | (inl e2, _) =>
      (get_commit_files self commit w).1 = inl e2 ∧
      log (get_commit_files self commit w).2 = log w
  | (inr sha, _) =>
      (get_commit_files self commit w).1 = inl e1 ∧
      log (get_commit_files self commit w).2
      = log w ++ [mkLog ERROR "Error retrieving files for commit %s: %s"
                    [LVal sha; LExn e1]]
  end.
Proof.
  intros H1 He. unfold get_commit_files. run_code. rewrite H1, He. simpl.
  by destruct (github r1 _) as [[e2|sha] r2].
Qed.

(** X12. When [commit.files] is read but reading [commit.sha] for the
    success record raises an exception of class [Exception],
    [get_commit_files] does not return the files: it ends in an exception,
    the one of the failed read or, if the handler's own read of
    [commit.sha] fails too, that one. *)
Theorem get_commit_files_sha_failure self commit (w : world R)
    files r1 e r2 :
  github (remote w) (Attr commit "files") = (inr files, r1) →
  github r1 (Attr commit "sha") = (inl e, r2) →
  is_Exception e = true →
  match github r2 (Attr commit "sha") with
  | (inl e2, _) => (get_commit_files self commit w).1 = inl e2
  | (inr _, _) => (get_commit_files self commit w).1 = inl e
  end.
Proof.
  intros H1 H2 He. unfold get_commit_files. run_code.
  rewrite H1. simpl. rewrite H2. simpl. rewrite He.
  by destruct (github r2 _) as [[e2|sha] r3].
Qed.

(** ** The constructor *)

Lemma fresh_not_in_heap (w : world R) : heap w !! fresh (dom (heap w)) = None.
Proof. apply not_elem_of_dom, is_fresh. Qed.

Lemma new_GithubClient_run token (w : world R) :
  let self := fresh (dom (heap w)) in
  let name := environ w !! "GITHUB_REPOSITORY" in
  let c0 := New "Github" [VStr token] in
  let failure e := mkLog ERROR "Error initializing GitHub client: %s" [LExn e] in
  let h0 := <[self := empty_instance]> (heap w) in
  new_GithubClient token w =
  let '(res0, r0) := github (remote w) c0 in
  let w0 := add_event (EvLib c0 res0) r0 (set_heap h0 w) in
  match res0 with
  | inl e =>
      if is_Exception e then (inl e, add_log (failure e) w0) else (inl e, w0)
  | inr c =>
      let c1 := Method c "get_repo" [of_opt name] [] in
      let h1 := <[self := {| client := Some c; repo_name := Some name;
                             repo := None |}]> (heap w) in
      let '(res1, r1) := github r0 c1 in
      let w1 := add_event (EvLib c1 res1) r1 (set_heap h1 w0) in
      match res1 with
      | inl e =>
          if is_Exception e then (inl e, add_log (failure e) w1)
          else (inl e, w1)
      | inr rp =>
          (inr self,
           add_log (mkLog INFO "Initialized GitHub client for repository: %s"
                      [LVal (of_opt name)])
             (set_heap
                (<[self := {| client := Some c; repo_name := Some name;
                              repo := Some rp |}]> (heap w)) w1))
      end
  end.
Proof.
  intros self name c0 failure h0.
  unfold new_GithubClient, __init__, new_object, setattr. run_code.
  fold self c0. destruct (github (remote w) c0) as [[e|c] r0]; simpl.
  - by destruct (is_Exception e).
  - repeat (progress (rewrite ?lookup_alter_eq, ?lookup_insert_eq; simpl)).
    fold name.
    destruct (github r0 _) as [[e|rp] r1]; simpl.
    + rewrite !alter_insert_eq. by destruct (is_Exception e).
    + repeat (progress (rewrite ?lookup_alter_eq, ?lookup_insert_eq; simpl)).
      by rewrite !alter_insert_eq.
Qed.

(** X13. The constructor writes one log record in each case: an INFO
    record with the repository name when both library calls succeed, an
    ERROR record with the exception when a call raises an exception of class
    [Exception]; an exception outside that class is not logged. *)
Theorem constructor_logs_once token (w : world R) :
  match github (remote w) (New "Github" [VStr token]) with
  | (inl e, _) =>
      log (new_GithubClient token w).2
      = log w ++ (if is_Exception e
                  then [mkLog ERROR "Error initializing GitHub client: %s"
                          [LExn e]]
                  else [])
  | (inr c, r0) =>
      match github r0 (Method c "get_repo"
                         [of_opt (environ w !! "GITHUB_REPOSITORY")] []) with
      | (inl e, _) =>
          log (new_GithubClient token w).2
          = log w ++ (if is_Exception e
                      then [mkLog ERROR "Error initializing GitHub client: %s"
                              [LExn e]]
                      else [])
      | (inr _, _) =>
          log (new_GithubClient token w).2
          = log w ++ [mkLog INFO "Initialized GitHub client for repository: %s"
                        [LVal (of_opt (environ w !! "GITHUB_REPOSITORY"))]]
      end
  end.
Proof.
  rewrite new_GithubClient_run. cbv zeta.
  destruct (github (remote w) _) as [[e|c] r0].
  - destruct (is_Exception e); simpl; [done | by rewrite app_nil_r].
  - destruct (github r0 _) as [[e|rp] r1]; [|done].
    destruct (is_Exception e); simpl; [done | by rewrite app_nil_r].
Qed.

(** X14. Constructing a client leaves every instance that exists as it is,
    leaves the environment as it is, and never hands out an instance that
    existed before. *)
Theorem constructor_keeps_instances token (w : world R) l o :
  heap w !! l = Some o →
  heap (new_GithubClient token w).2 !! l = Some o ∧
  environ (new_GithubClient token w).2 = environ w ∧
  (new_GithubClient token w).1 ≠ inr l.
Proof.
  intros Hl. pose proof (fresh_not_in_heap w) as Hf.
  assert (fresh (dom (heap w)) ≠ l) as Hne by congruence.
  rewrite new_GithubClient_run. cbv zeta.
  destruct (github (remote w) _) as [[e|c] r0].
  - destruct (is_Exception e); simpl; by rewrite lookup_insert_ne.
  - destruct (github r0 _) as [[e|rp] r1].
    + destruct (is_Exception e); simpl; by rewrite lookup_insert_ne.
    + simpl. rewrite lookup_insert_ne by done. split_and!; congruence.
Qed.

Lemma new_GithubClient_success token (w w1 : world R) self :
  new_GithubClient token w = (inr self, w1) →
  heap w1 !! self ≫= repo_name
  = Some (environ w !! "GITHUB_REPOSITORY").
Proof.
  rewrite new_GithubClient_run. cbv zeta.
  destruct (github (remote w) _) as [[e|c] r0].
  - by destruct (is_Exception e).
  - destruct (github r0 _) as [[e|rp] r1].
    + by destruct (is_Exception e).
    + intros [= <- <-]. simpl. by rewrite lookup_insert_eq.
Qed.

(** X15. The repository is bound when the client is constructed: in any
    later state in which the instance is as the constructor left it, whatever
    the environment has become, the raw operations address the repository
    named by [GITHUB_REPOSITORY] at construction. *)
Theorem repository_fixed_at_construction token (w w1 w2 : world R) self
    pr_id review_id reason :
  new_GithubClient token w = (inr self, w1) →
  heap w2 !! self = heap w1 !! self →
  (∃ req res,
     events (get_comments self pr_id w2).2 = events w2 ++ [EvHttp req res] ∧
     url req = "https://api.github.com/repos/"
               +:+ str_opt (environ w !! "GITHUB_REPOSITORY")
               +:+ "/issues/" +:+ pretty pr_id +:+ "/comments") ∧
  (∃ req res,
     events (get_pr_patch self pr_id w2).2 = events w2 ++ [EvHttp req res] ∧
     url req = "https://api.github.com/repos/"
               +:+ str_opt (environ w !! "GITHUB_REPOSITORY")
               +:+ "/pulls/" +:+ pretty pr_id) ∧
  (∃ req res,
     events (dismiss_review self pr_id review_id reason w2).2
     = events w2 ++ [EvHttp req res] ∧
     url req = "https://api.github.com/repos/"
               +:+ str_opt (environ w !! "GITHUB_REPOSITORY")
               +:+ "/pulls/" +:+ pretty pr_id
               +:+ "/reviews/" +:+ pretty review_id +:+ "/dismissals").
Proof.
  intros Hnew Hsame. apply new_GithubClient_success in Hnew.
  rewrite <- Hsame in Hnew. split_and!; eexists _, _.
  - split; [apply (get_comments_events _ _ _ _ Hnew) | done].
  - split; [apply (get_pr_patch_events _ _ _ _ Hnew) | done].
  - split; [apply (dismiss_review_events _ _ _ _ _ _ Hnew) | done].
Qed.

(** ** The raw operations *)

(** X1. [get_comments] makes one outside call, whether it is answered or
    not: a GET of [https://api.github.com/repos/{repo}/issues/{pr_id}/comments]
    with no timeout and no body.  An exception of the call comes out as it
    is, and an answer with an error status comes out as the HTTP error of
    that status. *)
Theorem get_comments_request self pr_id (w : world R) o n :
  heap w !! self = Some o → repo_name o = Some n →
  ∃ req res,
    events (get_comments self pr_id w).2 = events w ++ [EvHttp req res] ∧
    method req = GET ∧
    url req = "https://api.github.com/repos/" +:+ str_opt n
              +:+ "/issues/" +:+ pretty pr_id +:+ "/comments" ∧
    json_payload req = None ∧
    timeout req = None ∧
    match res with
    | inl e => (get_comments self pr_id w).1 = inl e
    | inr resp =>
        is_error_status (status_code resp) = true →
        (get_comments self pr_id w).1 = inl (HTTPError (status_code resp))
    end.
Proof.
  intros Ho Hn. pose proof (attr_lookup _ _ _ _ _ Ho Hn) as Ha.
  eexists _, _. split; [apply (get_comments_events _ _ _ _ Ha)|].
  split_and!; try done.
  rewrite (get_comments_run _ _ _ _ Ha). cbv zeta.
  destruct (requests_request _ _) as [[e|resp] r]; simpl; [done|].
  by intros ->.
Qed.

(** X2. [dismiss_review] makes one outside call: a POST to
    [https://api.github.com/repos/{repo}/pulls/{pr_id}/reviews/{review_id}/dismissals]
    with no timeout, [Accept: application/vnd.github+json],
    [Content-Type: application/json], and a JSON body of exactly two fields:
    the fixed message and, as [dismissal_reason], the reason given, or
    [OUT_OF_DATE] when none is given. *)
Theorem dismiss_review_request self pr_id review_id reason (w : world R) o n :
  heap w !! self = Some o → repo_name o = Some n →
  ∃ req res payload,
    events (dismiss_review self pr_id review_id reason w).2
    = events w ++ [EvHttp req res] ∧
    method req = POST ∧
    url req = "https://api.github.com/repos/" +:+ str_opt n
              +:+ "/pulls/" +:+ pretty pr_id
              +:+ "/reviews/" +:+ pretty review_id +:+ "/dismissals" ∧
    timeout req = None ∧
    headers req !! "Accept" = Some "application/vnd.github+json" ∧
    headers req !! "Content-Type" = Some "application/json" ∧
    json_payload req = Some (VDict payload) ∧
    dom payload = {["message"; "dismissal_reason"]} ∧
    payload !! "message"
    = Some (VStr "This review has been superseded by a newer review.") ∧
    payload !! "dismissal_reason"
    = Some (VStr (match reason with Some s => s | None => "OUT_OF_DATE" end)).
Proof.
  intros Ho Hn. pose proof (attr_lookup _ _ _ _ _ Ho Hn) as Ha.
  eexists _, _, _. split; [apply (dismiss_review_events _ _ _ _ _ _ Ha)|].
  split_and!; reflexivity.
Qed.

(** X3. What [dismiss_review] swallows is decided by the class of the
    exception alone: when the POST itself raises, a
    [requests.RequestException] (a connection failure, a timeout) gives
    [False], and any other exception comes out as it is. *)
Theorem dismiss_review_exception_classes self pr_id review_id reason
    (w : world R) req e :
  events (dismiss_review self pr_id review_id reason w).2
  = events w ++ [EvHttp req (inl e)] →
  (dismiss_review self pr_id review_id reason w).1
  = if is_RequestException e then inr false else inl e.
Proof.
  intros Hev. destruct (heap w !! self ≫= repo_name) as [n|] eqn:Hn.
  - rewrite (dismiss_review_events _ _ _ _ _ _ Hn) in Hev.
    apply app_inv_head in Hev. injection Hev as _ Hres.
    rewrite (dismiss_review_run _ _ _ _ _ _ Hn). cbv zeta.
    destruct (requests_request _ _) as [res r]. simpl in Hres. subst res.
    by destruct (is_RequestException e).
  - rewrite (dismiss_review_no_attr _ _ _ _ _ Hn) in Hev.
    apply events_fresh in Hev. discriminate.
Qed.

(** X4. [dismiss_review] never returns without a trace: [True] comes with
    exactly one new record, at INFO, and [False] with exactly one new
    record, at ERROR, that carries the swallowed exception. *)
Theorem dismiss_review_result_logged self pr_id review_id reason (w : world R) :
  match (dismiss_review self pr_id review_id reason w).1 with
  | inr true =>
      log (dismiss_review self pr_id review_id reason w).2
      = log w ++ [mkLog INFO
                    "Dismissed review ID %s for PR ID %s with reason: %s"
                    [LVal (VInt review_id); LVal (VInt pr_id);
                     LVal (VStr (default "OUT_OF_DATE" reason))]]
  | inr false =>
      ∃ e, is_RequestException e = true ∧
        log (dismiss_review self pr_id review_id reason w).2
        = log w ++ [mkLog ERROR
                      "Error dismissing review ID %s for PR ID %s: %s"
                      [LVal (VInt review_id); LVal (VInt pr_id); LExn e]]
  | inl e => is_RequestException e = false
  end.
Proof.
  destruct (heap w !! self ≫= repo_name) as [n|] eqn:Hn.
  - rewrite (dismiss_review_run _ _ _ _ _ _ Hn). cbv zeta.
    destruct (requests_request _ _) as [[e|resp] r]; simpl.
    + destruct (is_RequestException e) eqn:He; simpl; [by exists e | done].
    + destruct (is_error_status _); simpl; [|done].
      by exists (HTTPError (status_code resp)).
  - by rewrite (dismiss_review_no_attr _ _ _ _ _ Hn).
Qed.

(** X16. With [GITHUB_TOKEN] unset the raw operations do not stop: each
    still sends its request, with [Authorization: token None]. *)
Theorem unset_token_sent_as_None self pr_id review_id reason (w : world R) o n :
  heap w !! self = Some o → repo_name o = Some n →
  environ w !! "GITHUB_TOKEN" = None →
  (∃ req res,
     events (get_comments self pr_id w).2 = events w ++ [EvHttp req res] ∧
     headers req !! "Authorization" = Some "token None") ∧
  (∃ req res,
     events (get_pr_patch self pr_id w).2 = events w ++ [EvHttp req res] ∧
     headers req !! "Authorization" = Some "token None") ∧
  (∃ req res,
     events (dismiss_review self pr_id review_id reason w).2
     = events w ++ [EvHttp req res] ∧
     headers req !! "Authorization" = Some "token None").
Proof.
  intros Ho Hn Ht. pose proof (attr_lookup _ _ _ _ _ Ho Hn) as Ha.
  split_and!; eexists _, _.
  - split; [apply (get_comments_events _ _ _ _ Ha) | by rewrite Ht].
  - split; [apply (get_pr_patch_events _ _ _ _ Ha) | by rewrite Ht].
  - split; [apply (dismiss_review_events _ _ _ _ _ _ Ha) | by rewrite Ht].
Qed.

(** X18. [get_pr_patch] writes one record for the call it makes: INFO with
    the pull request id when the answer has no error status, ERROR with the
    id and the exception when the call raises a [requests.RequestException]
    or the answer has an error status.  An exception of another class goes
    by unlogged. *)
Theorem get_pr_patch_logging self pr_id (w : world R) req res :
  events (get_pr_patch self pr_id w).2 = events w ++ [EvHttp req res] →
  log (get_pr_patch self pr_id w).2 =
  log w ++
  match res with
  | inl e =>
      if is_RequestException e
      then [mkLog ERROR "Error retrieving patch for PR ID %s: %s"
              [LVal (VInt pr_id); LExn e]]
      else []
  | inr resp =>
      if is_error_status (status_code resp)
      then [mkLog ERROR "Error retrieving patch for PR ID %s: %s"
              [LVal (VInt pr_id); LExn (HTTPError (status_code resp))]]
      else [mkLog INFO "Retrieved patch for PR ID: %s" [LVal (VInt pr_id)]]
  end.
Proof.
  intros Hev. destruct (heap w !! self ≫= repo_name) as [n|] eqn:Hn.
  - rewrite (get_pr_patch_events _ _ _ _ Hn) in Hev.
    apply app_inv_head in Hev. injection Hev as _ Hres.
    rewrite (get_pr_patch_run _ _ _ _ Hn). cbv zeta.
    destruct (requests_request _ _) as [res' r]. simpl in Hres. subst res'.
    destruct res as [e|resp]; simpl.
    + destruct (is_RequestException e); simpl; [done | by rewrite app_nil_r].
    + by destruct (is_error_status _).
  - rewrite (get_pr_patch_no_attr _ _ _ Hn) in Hev.
    apply events_fresh in Hev. discriminate.
Qed.

(** ** Library calls and raw calls are kept apart *)

#[export] Instance only_events_preorder p : PreOrder (only_events (R:=R) p).
Proof.
  split.
  - intros w. exists []. by rewrite app_nil_r.
  - intros w1 w2 w3 (e1 & H1 & F1) (e2 & H2 & F2). exists (e1 ++ e2). split.
    + by rewrite H2, H1, app_assoc.
    + by rewrite forallb_app, F1, F2.
Qed.

Lemma only_events_add_log p r (w : world R) : only_events p w (add_log r w).
Proof. exists []. simpl. by rewrite app_nil_r. Qed.

Lemma preserves_library_only c :
  preserves (only_events is_lib) (library c).
Proof.
  intros w. unfold library. destruct (github _ _) as [res r].
  by exists [EvLib c res].
Qed.

Ltac lib_only :=
  repeat (intros; cbv zeta;
    first [ match goal with |- PreOrder _ => apply _ end
          | apply preserves_ret | apply preserves_raise
          | apply preserves_bind | apply preserves_try
          | apply preserves_getattr
          | apply preserves_logging_info | apply preserves_logging_error
          | apply preserves_library_only
          | apply only_events_add_log ]).

Lemma get_pr_lib_only self pr_id :
  preserves (only_events is_lib) (get_pr self pr_id).
Proof. unfold get_pr. lib_only. Qed.

Lemma bind_ret_state {A B : Type} (m : M R A) (f : A → B) (w : world R) :
  ((m ≫= λ a, mret (f a)) w).2 = (m w).2.
Proof. rewrite bind_run. by destruct (m w) as [[e|a] w']. Qed.

(** X17. The library-backed operations make library calls only, never a raw
    HTTP request; the three raw operations make no library call and at most
    one HTTP request, so none is ever sent again. *)
Theorem library_and_raw_calls_apart self op (w : world R) evs :
  events (call self op w).2 = events w ++ evs →
  match op with
  | Get_comments _ | Get_pr_patch _ | Dismiss_review _ _ _ =>
      forallb is_http evs = true ∧ length evs ≤ 1
  | _ => forallb is_lib evs = true
  end.
Proof.
  intros Hev.
  assert (∀ m : M R pyval, preserves (only_events is_lib) m →
            events (m w).2 = events w ++ evs → forallb is_lib evs = true)
    as Hlib.
  { intros m Hm Hm'. destruct (Hm w) as (evs' & H1 & H2).
    rewrite H1 in Hm'. apply app_inv_head in Hm'. by subst. }
  assert (∀ l, events w ++ evs = events w ++ l →
            forallb is_http l = true → length l ≤ 1 →
            forallb is_http evs = true ∧ length evs ≤ 1) as Hraw.
  { intros l Hl ? ?. apply app_inv_head in Hl. by subst. }
  destruct op; simpl in Hev.
  - apply (Hlib _ (get_pr_lib_only _ _) Hev).
  - refine (Hlib _ _ Hev). unfold get_pr_comments. lib_only.
  - rewrite bind_ret_state in Hev.
    destruct (heap w !! self ≫= repo_name) as [n|] eqn:Hn.
    + rewrite (get_comments_events _ _ _ _ Hn) in Hev.
      by apply (Hraw _ (eq_sym Hev)).
    + rewrite (get_comments_no_attr _ _ _ Hn) in Hev. simpl in Hev.
      rewrite <- (app_nil_r (events w)) in Hev at 1.
      apply (Hraw _ (eq_sym Hev)); simpl; [done | lia].
  - refine (Hlib _ _ Hev). unfold post_comment. lib_only.
  - refine (Hlib _ _ Hev). unfold get_commit_files. lib_only.
  - refine (Hlib _ _ Hev). unfold get_file_content. lib_only.
  - rewrite bind_ret_state in Hev.
    destruct (heap w !! self ≫= repo_name) as [n|] eqn:Hn.
    + rewrite (get_pr_patch_events _ _ _ _ Hn) in Hev.
      by apply (Hraw _ (eq_sym Hev)).
    + rewrite (get_pr_patch_no_attr _ _ _ Hn) in Hev. simpl in Hev.
      rewrite <- (app_nil_r (events w)) in Hev at 1.
      apply (Hraw _ (eq_sym Hev)); simpl; [done | lia].
  - refine (Hlib _ _ Hev). unfold get_reviews. lib_only.
  - refine (Hlib _ _ Hev). unfold post_review. lib_only.
  - rewrite bind_ret_state in Hev.
    destruct (heap w !! self ≫= repo_name) as [n|] eqn:Hn.
    + rewrite (dismiss_review_events _ _ _ _ _ _ Hn) in Hev.
      by apply (Hraw _ (eq_sym Hev)).
    + rewrite (dismiss_review_no_attr _ _ _ _ _ Hn) in Hev. simpl in Hev.
      rewrite <- (app_nil_r (events w)) in Hev at 1.
      apply (Hraw _ (eq_sym Hev)); simpl; [done | lia].
Qed.

(** ** Edge cases of the list comprehension *)

Lemma get_comments_answered self pr_id (w : world R) req resp :
  events (get_comments self pr_id w).2 = events w ++ [EvHttp req (inr resp)] →
  is_error_status (status_code resp) = false →
  (get_comments self pr_id w).1 = json resp ≫= id_and_body.
Proof.
  intros Hev Hs. destruct (heap w !! self ≫= repo_name) as [n|] eqn:Hn.
  - rewrite (get_comments_events _ _ _ _ Hn) in Hev.
    apply app_inv_head in Hev. injection Hev as _ Hres.
    rewrite (get_comments_run _ _ _ _ Hn). cbv zeta.
    destruct (requests_request _ _) as [res r]. simpl in Hres. subst res.
    by rewrite Hs.
  - rewrite (get_comments_no_attr _ _ _ Hn) in Hev.
    apply events_fresh in Hev. discriminate.
Qed.

Lemma id_and_body_first_failure good c rest e :
  Forall (λ c, ∃ cd, c = VDict cd ∧ is_Some (cd !! "id")
                     ∧ is_Some (cd !! "body")) good →
  (subscript c "id" = inl e ∨
   ∃ i, subscript c "id" = inr i ∧ subscript c "body" = inl e) →
  id_and_body (VList (good ++ c :: rest)) = inl e.
Proof.
  intros Hgood Hc. unfold id_and_body. simpl.
  induction Hgood as [|g good Hg _ IH]; simpl.
  - destruct Hc as [->|(i & -> & ->)]; done.
  - destruct Hg as (cd & -> & [i Hi] & [b Hb]). simpl. rewrite Hi, Hb. simpl.
    by rewrite IH.
Qed.

(** X5. When the answer is a JSON array and the first element that is not
    an object with both fields is an object without [id], or with [id] but
    without [body], [get_comments] raises [KeyError] for that key: [id] is
    looked up before [body], and no list of the elements before it is
    returned. *)
Theorem get_comments_missing_key self pr_id (w : world R) req resp
    good cd rest :
  events (get_comments self pr_id w).2 = events w ++ [EvHttp req (inr resp)] →
  is_error_status (status_code resp) = false →
  json resp = inr (VList (good ++ VDict cd :: rest)) →
  Forall (λ c, ∃ d, c = VDict d ∧ is_Some (d !! "id")
                    ∧ is_Some (d !! "body")) good →
  (cd !! "id" = None →
   (get_comments self pr_id w).1 = inl (KeyError "id")) ∧
  (is_Some (cd !! "id") → cd !! "body" = None →
   (get_comments self pr_id w).1 = inl (KeyError "body")).
Proof.
  intros Hev Hs Hj Hgood. rewrite (get_comments_answered _ _ _ _ _ Hev Hs), Hj.
  split.
  - intros Hi. apply (id_and_body_first_failure _ _ _ _ Hgood).
    left. simpl. by rewrite Hi.
  - intros [i Hi] Hb. apply (id_and_body_first_failure _ _ _ _ Hgood).
    right. exists i. simpl. by rewrite Hi, Hb.
Qed.

(** X6. When the answer decodes to something other than an array:
    an empty object or an empty string gives the empty list; a non-empty
    object or string, [None], a boolean or a number gives a [TypeError]. *)
Theorem get_comments_not_an_array self pr_id (w : world R) req resp v :
  events (get_comments self pr_id w).2 = events w ++ [EvHttp req (inr resp)] →
  is_error_status (status_code resp) = false →
  json resp = inr v →
  match v with
  | VList _ => True
  | VDict d =>
      (d = ∅ → (get_comments self pr_id w).1 = inr []) ∧
      (d ≠ ∅ → ∃ m, (get_comments self pr_id w).1 = inl (TypeError m))
  | VStr s =>
      (s = "" → (get_comments self pr_id w).1 = inr []) ∧
      (s ≠ "" → ∃ m, (get_comments self pr_id w).1 = inl (TypeError m))
  | _ => ∃ m, (get_comments self pr_id w).1 = inl (TypeError m)
  end.
Proof.
  intros Hev Hs Hj. rewrite (get_comments_answered _ _ _ _ _ Hev Hs), Hj.
  destruct v as [| | | |s| |d|]; try done; simpl; try by eexists.
  - split; [by intros -> |]. intros Hne.
    destruct s as [|a s]; [done|]. unfold id_and_body. simpl. by eexists.
  - split.
    + intros ->. unfold id_and_body. simpl. by rewrite map_to_list_empty.
    + intros Hne. unfold id_and_body. simpl.
      destruct (map_to_list d) as [|[k x] l] eqn:Hl.
      * by apply map_to_list_empty_iff in Hl.
      * simpl. by eexists.
Qed.

End Extras.

(** ** The further properties at concrete inputs *)

Lemma get_pr_is_get_pull_witness :
  (get_pr 1%positive 7
     (script_world demo_environ [ALib (inr (VObj 9))])).1 = inr (VObj 9).
Proof.
  destruct (get_pr_is_get_pull 1%positive 7
              (script_world demo_environ [ALib (inr (VObj 9))])
              demo_client (VObj 1) eq_refl eq_refl) as [_ Hres].
  exact Hres.
Defined.

Lemma pr_operations_forward_witness :
  (post_comment 1%positive 7 "hello"
     (script_world demo_environ
        [ALib (inr (VObj 9)); ALib (inr (VObj 10))])).1 = inr (VObj 10).
Proof.
  destruct (pr_operations_forward 1%positive 7 "hello"
              (script_world demo_environ
                 [ALib (inr (VObj 9)); ALib (inr (VObj 10))])
              (VObj 9)
              (get_pr 1%positive 7
                 (script_world demo_environ
                    [ALib (inr (VObj 9)); ALib (inr (VObj 10))])).2)
    as (_ & [_ Hres] & _); [vm_compute; reflexivity|].
  exact Hres.
Defined.


Lemma get_file_content_steps_witness :
  (get_file_content 1%positive "abc123" "README.md"
     (script_world demo_environ
        [ALib (inr (VObj 5)); ALib (inr (VObj 6));
         ALib (inr (VStr "hello"))])).1 = inr (VStr "hello").
Proof.
  destruct (get_file_content_steps 1%positive "abc123" "README.md"
              (script_world demo_environ
                 [ALib (inr (VObj 5)); ALib (inr (VObj 6));
                  ALib (inr (VStr "hello"))])
              demo_client (VObj 1) (VObj 5)
              [ALib (inr (VObj 6)); ALib (inr (VStr "hello"))]
              (VObj 6) [ALib (inr (VStr "hello"))])
    as [_ Hres]; [reflexivity | reflexivity | reflexivity | reflexivity |].
  exact Hres.
Defined.

Lemma get_commit_files_handler_witness :
  (get_commit_files 1%positive (VObj 3)
     (script_world demo_environ
        [ALib (inl (OtherException "GithubException"));
         ALib (inl (OtherException "RateLimitExceededException"))])).1
  = inl (OtherException "RateLimitExceededException") ∧
  log (get_commit_files 1%positive (VObj 3)
     (script_world demo_environ
        [ALib (inl (OtherException "GithubException"));
         ALib (inl (OtherException "RateLimitExceededException"))])).2 = [].
Proof.
  pose proof (get_commit_files_handler 1%positive (VObj 3)
           (script_world demo_environ
              [ALib (inl (OtherException "GithubException"));
               ALib (inl (OtherException "RateLimitExceededException"))])
           (OtherException "GithubException")
           [ALib (inl (OtherException "RateLimitExceededException"))]) as H.
  exact (H eq_refl eq_refl).
Defined.

Lemma get_commit_files_sha_failure_witness :
  (get_commit_files 1%positive (VObj 3)
     (script_world demo_environ
        [ALib (inr (VList [VStr "a.py"]));
         ALib (inl (OtherException "GithubException"));
         ALib (inr (VStr "abc123"))])).1
  = inl (OtherException "GithubException").
Proof.
  pose proof (get_commit_files_sha_failure 1%positive (VObj 3)
           (script_world demo_environ
              [ALib (inr (VList [VStr "a.py"]));
               ALib (inl (OtherException "GithubException"));
               ALib (inr (VStr "abc123"))])
           (VList [VStr "a.py"])
           [ALib (inl (OtherException "GithubException"));
            ALib (inr (VStr "abc123"))]
           (OtherException "GithubException")
           [ALib (inr (VStr "abc123"))]) as H.
  exact (H eq_refl eq_refl eq_refl).
Defined.

Lemma constructor_keeps_instances_witness :
  heap (new_GithubClient "ctor-token" (demo_world 200)).2 !! 1%positive
  = Some demo_client ∧
  environ (new_GithubClient "ctor-token" (demo_world 200)).2
  = environ (demo_world 200) ∧
  (new_GithubClient "ctor-token" (demo_world 200)).1 ≠ inr 1%positive.
Proof.
  apply (constructor_keeps_instances "ctor-token" (demo_world 200)
           1%positive demo_client).
  reflexivity.
Defined.

Lemma repository_fixed_at_construction_witness :
  ∃ req res,
    events (get_pr_patch 1%positive 7
              {| environ := ∅;
                 heap := heap (new_GithubClient "ctor-token"
                                 (fresh_world 200)).2;
                 log := []; events := []; remote := 200%Z |}).2
    = [] ++ [EvHttp req res] ∧
    url req = "https://api.github.com/repos/octo/hello/pulls/7".
Proof.
  destruct (repository_fixed_at_construction "ctor-token" (fresh_world 200)
              (new_GithubClient "ctor-token" (fresh_world 200)).2
              {| environ := ∅;
                 heap := heap (new_GithubClient "ctor-token"
                                 (fresh_world 200)).2;
                 log := []; events := []; remote := 200%Z |}
              1%positive 7 3 None)
    as (_ & Hpatch & _); [vm_compute; reflexivity | reflexivity |].
  exact Hpatch.
Defined.

Lemma get_comments_request_witness :
  (get_comments 1%positive 7 (demo_world 503)).1 = inl (HTTPError 503).
Proof.
  destruct (get_comments_request 1%positive 7 (demo_world 503) demo_client
              (Some "octo/hello") eq_refl eq_refl)
    as (req & res & Hev & _ & _ & _ & _ & Hres).
  vm_compute in Hev. injection Hev as _ <-.
  exact (Hres eq_refl).
Defined.

Lemma dismiss_review_request_witness :
  ∃ req res payload,
    events (dismiss_review 1%positive 7 3 (Some "STALE") (demo_world 200)).2
    = events (demo_world 200) ++ [EvHttp req res] ∧
    json_payload req = Some (VDict payload) ∧
    payload !! "dismissal_reason" = Some (VStr "STALE").
Proof.
  destruct (dismiss_review_request 1%positive 7 3 (Some "STALE")
              (demo_world 200) demo_client (Some "octo/hello")
              eq_refl eq_refl)
    as (req & res & payload & Hev & _ & _ & _ & _ & _ & Hp & _ & _ & Hr).
  exists req, res, payload. split_and!; [exact Hev | exact Hp | exact Hr].
Defined.

Lemma dismiss_review_exception_classes_witness :
  (dismiss_review 1%positive 7 3 None (demo_world (-1))).1 = inr false ∧
  (dismiss_review 1%positive 7 3 None
     (script_world demo_environ [AHttp (inl (OtherException "ValueError"))])).1
  = inl (OtherException "ValueError").
Proof.
  split.
  - apply (dismiss_review_exception_classes 1%positive 7 3 None
             (demo_world (-1))
             (dismissal_request (Some "octo/hello") (Some "env-token") 7 3
                "OUT_OF_DATE")
             (RequestException "ConnectionError")).
    vm_compute; reflexivity.
  - apply (dismiss_review_exception_classes 1%positive 7 3 None
             (script_world demo_environ
                [AHttp (inl (OtherException "ValueError"))])
             (dismissal_request (Some "octo/hello") (Some "env-token") 7 3
                "OUT_OF_DATE")
             (OtherException "ValueError")).
    vm_compute; reflexivity.
Defined.

Lemma unset_token_sent_as_None_witness :
  ∃ req res,
    events (get_comments 1%positive 7
              (script_world (<["GITHUB_REPOSITORY" := "octo/hello"]> ∅)
                 [AHttp (inr (demo_response 200))])).2
    = [] ++ [EvHttp req res] ∧
    headers req !! "Authorization" = Some "token None".
Proof.
  destruct (unset_token_sent_as_None 1%positive 7 3 None
              (script_world (<["GITHUB_REPOSITORY" := "octo/hello"]> ∅)
                 [AHttp (inr (demo_response 200))])
              demo_client (Some "octo/hello") eq_refl eq_refl)
    as (Hc & _ & _); [vm_compute; reflexivity|].
  exact Hc.
Defined.

Lemma get_pr_patch_logging_witness :
  log (get_pr_patch 1%positive 7 (demo_world 200)).2
  = [mkLog INFO "Retrieved patch for PR ID: %s" [LVal (VInt 7)]].
Proof.
  apply (get_pr_patch_logging 1%positive 7 (demo_world 200)
           (patch_request (Some "octo/hello") (Some "env-token") 7)
           (inr (demo_response 200))).
  vm_compute; reflexivity.
Defined.

Lemma library_and_raw_calls_apart_witness :
  forallb is_lib
    (events (call 1%positive (Post_comment 7 "hello") (demo_world 200)).2)
  = true ∧
  forallb is_http
    (events (call 1%positive (Get_pr_patch 7) (demo_world 200)).2) = true.
Proof.
  split.
  - apply (library_and_raw_calls_apart 1%positive (Post_comment 7 "hello")
             (demo_world 200)
             (events (call 1%positive (Post_comment 7 "hello")
                        (demo_world 200)).2)).
    reflexivity.
  - apply (library_and_raw_calls_apart 1%positive (Get_pr_patch 7)
             (demo_world 200)
             (events (call 1%positive (Get_pr_patch 7) (demo_world 200)).2)).
    reflexivity.
Defined.

Lemma get_comments_missing_key_witness :
  (get_comments 1%positive 7
     (script_world demo_environ
        [AHttp (inr {| status_code := 200; text := "";
                       json := inr (VList (demo_items
                                 ++ [VDict (<["id" := VInt 13]> ∅)])) |})])).1
  = inl (KeyError "body").
Proof.
  apply (get_comments_missing_key 1%positive 7
           (script_world demo_environ
              [AHttp (inr {| status_code := 200; text := "";
                             json := inr (VList (demo_items
                                      ++ [VDict (<["id" := VInt 13]> ∅)])) |})])
           (comments_request (Some "octo/hello") (Some "env-token") 7)
           {| status_code := 200; text := "";
              json := inr (VList (demo_items
                             ++ [VDict (<["id" := VInt 13]> ∅)])) |}
           demo_items (<["id" := VInt 13]> ∅) []).
  - vm_compute; reflexivity.
  - reflexivity.
  - reflexivity.
  - repeat constructor; eexists; (split; [reflexivity|]); split; by eexists.
  - by eexists.
  - reflexivity.
Defined.

Lemma get_comments_not_an_array_witness :
  ∃ m,
    (get_comments 1%positive 7
       (script_world demo_environ
          [AHttp (inr {| status_code := 200; text := "";
                         json := inr (VDict (<["message" := VStr "Moved"]> ∅))
                      |})])).1
    = inl (TypeError m).
Proof.
  destruct (get_comments_not_an_array 1%positive 7
              (script_world demo_environ
                 [AHttp (inr {| status_code := 200; text := "";
                                json := inr (VDict
                                          (<["message" := VStr "Moved"]> ∅))
                             |})])
              (comments_request (Some "octo/hello") (Some "env-token") 7)
              {| status_code := 200; text := "";
                 json := inr (VDict (<["message" := VStr "Moved"]> ∅)) |}
              (VDict (<["message" := VStr "Moved"]> ∅)))
    as [_ Hne]; [vm_compute; reflexivity | reflexivity | reflexivity |].
  apply Hne. intros Hempty.
  apply (f_equal (λ d : gmap string pyval, d !! "message")) in Hempty.
  discriminate Hempty.
Defined.
